(** * p3data: record normalisation, scoring and ranking pipeline

    A shallow embedding of [src/p3data.py].  The script reads spreadsheet
    extracts into pandas data frames, merges them, derives a handful of
    columns and exports the table sorted by a suspicion score.

    Conventions of the embedding:
    - a Python [str] is the list of its code points ([pystr]);
    - a spreadsheet cell is null ([NaN]), a string, or some other
      non-null object of which the script only ever takes [str()];
    - a [Series] is the list of its values in row order, a row of a data
      frame is a finite map from column labels to cells;
    - a timestamp is its count of nanoseconds since the epoch, as in
      [datetime64[ns]]; [NaT] is [None];
    - operations of pandas and of the [re] module whose result depends on
      tables or floating point that the script does not contain are
      variables of the section [Model]. *)

From Stdlib Require Import ZArith NArith QArith Ascii String DecimalString.
From stdpp Require Import gmap strings list fin_maps sorting.

#[local] Set Warnings "-clear-no-such-hyp".

Close Scope Q_scope.
Local Open Scope Z_scope.

(** ** Python strings *)

Module PyStr.

(** A string is the sequence of its Unicode code points. *)
Abbreviation pystr := (list N).

(** Literals: an ASCII Rocq string read as code points. *)
Definition lit (s : string) : pystr := N_of_ascii <$> list_ascii_of_string s.

(** [str.isspace] for one character, the set that [str.strip()] removes
    when it is called without argument. *)
Definition is_space (c : N) : bool :=
  ((9 <=? c) && (c <=? 13) || (28 <=? c) && (c <=? 32)
   || (c =? 133) || (c =? 160) || (c =? 5760)
   || (8192 <=? c) && (c <=? 8202)
   || (c =? 8232) || (c =? 8233) || (c =? 8239) || (c =? 8287)
   || (c =? 12288))%N.

Fixpoint lstrip (s : pystr) : pystr :=
  match s with
  | c :: s' => if is_space c then lstrip s' else s
  | [] => []
  end.

Definition rstrip (s : pystr) : pystr := reverse (lstrip (reverse s)).

(** [s.strip()] *)
Definition strip (s : pystr) : pystr := rstrip (lstrip s).

(** [re.sub(r"\.0$", "", s)].  Without [re.MULTILINE], [$] matches at
    the end of the string and also just before a newline that ends the
    string, so the match is the final [".0"], or the [".0"] in front of
    a final newline. *)
Definition sub_dot0_end (s : pystr) : pystr :=
  match reverse s with
  | a :: b :: r =>
      if ((a =? 48) && (b =? 46))%N then reverse r
      else match r with
           | c :: r' =>
               if ((a =? 10) && (b =? 48) && (c =? 46))%N
               then reverse r' ++ [10%N] else s
           | [] => s
           end
  | _ => s
  end.

Section Digits.

(** [\d] on a [str] pattern is the Unicode category Nd.  Below 128
    that is ['0'..'9']; the table for the other code points belongs
    to the interpreter and is a parameter. *)
Variable unicode_Nd : N → bool.

Definition is_digit (c : N) : bool :=
  if (c <? 128)%N then ((48 <=? c) && (c <=? 57))%N else unicode_Nd c.

(** [re.sub(r"\D+", "", s)]: every maximal run of non-digits is
    deleted, which leaves the digits in their order. *)
Definition sub_nondigits (s : pystr) : pystr := filter (λ c, is_digit c = true) s.

End Digits.

End PyStr.
Import PyStr.

(** ** Configuration *)

Definition OUTPUT_FILE : pystr := lit "P3_MASTER_VERIFIED.xlsx".
Definition PREDICT_REMAINING_WEEKS : Z := 20.
Definition DEFAULT_FAKE_THRESHOLD : Z := 70.

(** ** Exceptions

    The script catches nothing: an exception raised by a stage ends the
    run without output. *)

Inductive exn : Type :=
| KeyError (label : string)
| OverflowError.

Inductive result (A : Type) : Type :=
| Ok (a : A)
| Raise (e : exn).

Arguments Ok {A} a.
Arguments Raise {A} e.

#[global] Instance result_ret : MRet result := λ A x, Ok x.
#[global] Instance result_bind : MBind result :=
  λ A B f m, match m with Ok a => f a | Raise e => Raise e end.

(** ** Timestamps and series *)

(** One day, in nanoseconds. *)
Definition day_ns : Z := 86400 * 10 ^ 9.

(** The values of [datetime64[ns]] and [timedelta64[ns]] other than the
    one that encodes [NaT]. *)
Definition in_i64 (z : Z) : bool := (- 2 ^ 63 <? z) && (z <? 2 ^ 63).

(** [Series + Timedelta]: [NaT] stays [NaT]; pandas checks the int64
    addition and raises when it overflows. *)
Definition ts_add (d : option Z) (delta : Z) : result (option Z) :=
  match d with
  | None => Ok None
  | Some t => if in_i64 (t + delta) then Ok (Some (t + delta)) else Raise OverflowError
  end.

(** [Timestamp - Series], checked in the same way. *)
Definition ts_rsub (now : Z) (d : option Z) : result (option Z) :=
  match d with
  | None => Ok None
  | Some t => if in_i64 (now - t) then Ok (Some (now - t)) else Raise OverflowError
  end.

(** [data.loc[mask, col]]: the values of the rows where the mask holds. *)
Fixpoint select {A} (mask : list bool) (s : list A) : list A :=
  match mask, s with
  | m :: mask', x :: s' => if m then x :: select mask' s' else select mask' s'
  | _, _ => []
  end.

(** [data.loc[mask, col] = values]: the rows where the mask holds take
    the values, which carry the index of those rows, in order; rows for
    which no value is left keep what they had. *)
Fixpoint assign {A} (mask : list bool) (s values : list A) : list A :=
  match mask, s with
  | m :: mask', x :: s' =>
      if m then
        match values with
        | v :: values' => v :: assign mask' s' values'
        | [] => x :: assign mask' s' []
        end
      else x :: assign mask' s' values
  | _, _ => s
  end.

(** [.astype(int)] on a boolean series *)
Definition astype_int (s : list bool) : list Z := (λ b : bool, if b then 1 else 0) <$> s.

(** [series * k] and [series + series] *)
Definition smul (s : list Z) (k : Z) : list Z := (λ x, x * k) <$> s.
Definition sadd (s t : list Z) : list Z := zip_with Z.add s t.

(** [score.clip(lo, hi)] for one value *)
Definition clip (lo hi x : Z) : Z := Z.min hi (Z.max lo x).

(** [.isna().mean()]: the fraction of [True], [NaN] on an empty series. *)
Definition mean (s : list bool) : option Q :=
  match s with
  | [] => None
  | _ => Some (Z.of_nat (length (filter (λ b, b = true) s)) # Pos.of_nat (length s))%Q
  end.

(** [m < 0.9], which is false when [m] is [NaN].  The quotient and the
    constant are float64 in the script and exact here; the two agree as
    long as the series has fewer than 2^49 rows. *)
Definition lt_09 (m : option Q) : bool :=
  match m with
  | None => false
  | Some q => negb (Qle_bool (9 # 10)%Q q)
  end.

(** [x > 72] on the values of the age column *)
Definition gt_72 (q : Q) : bool := negb (Qle_bool q (72 # 1)%Q).

(** Number of rows whose value is [x]. *)
Definition occurrences {A} `{EqDecision A} (x : A) (s : list A) : nat :=
  length (filter (λ y, y = x) s).

(** [data.duplicated(col, keep=False)]: every row whose value occurs
    more than once is marked. *)
Definition duplicated_keep_false {A} `{EqDecision A} (s : list A) : list bool :=
  (λ x, bool_decide (1 < occurrences x s)%nat) <$> s.

(** Row-wise application of a column of functions, used to put the
    columns of the final table together. *)
Definition zap {A B} (fs : list (A → B)) (xs : list A) : list B :=
  zip_with (λ f x, f x) fs xs.

Infix "<@>" := zap (at level 61, left associativity).

(** ** Derived values *)

Inductive Status : Type := Pregnant | Has_Child | Unknown.

Inductive Label : Type := High | Medium | Low.

#[global] Instance Status_eq_dec : EqDecision Status.
Proof. solve_decision. Defined.

#[global] Instance Label_eq_dec : EqDecision Label.
Proof. solve_decision. Defined.

(** [pd.cut(x, bins=[-1, 30, 70, 100], labels=["High", "Medium", "Low"])]
    for one value: the bins are closed on the right and open on the
    left, a value outside all of them gets no label. *)
Definition cut (x : Z) : option Label :=
  if (-1 <? x) && (x <=? 30) then Some High
  else if (30 <? x) && (x <=? 70) then Some Medium
  else if (70 <? x) && (x <=? 100) then Some Low
  else None.

(** ** The script *)

Section Model.

(** Non-null cell values other than strings: numbers, datetimes. *)
Variable obj : Type.
(** Python's [str()] on them, e.g. ["901234567.0"] for a numeric cell. *)
Variable str_obj : obj → pystr.
Variable unicode_Nd : N → bool.

Inductive cell : Type :=
| NaN
| Str (s : pystr)
| Obj (o : obj).

(** [pd.isna] and [pd.notna] on a scalar; [None], [NaN] and [NaT] are all [NaN] here. *)
Definition isna (x : cell) : bool :=
  match x with NaN => true | _ => false end.

Definition notna (x : cell) : bool := negb (isna x).

(** [str(x)] *)
Definition str (x : cell) : pystr :=
  match x with
  | NaN => lit "nan"
  | Str s => s
  | Obj o => str_obj o
  end.

Definition normalize_phone (x : cell) : pystr :=
  if isna x then []
  else
    let s := strip (str x) in
    let s := sub_dot0_end s in
    let s := sub_nondigits unicode_Nd s in
    s.

(** *** Data frames *)

Abbreviation Row := (gmap string cell).

Record DataFrame : Type := mkFrame {
  columns : list string;
  rows : list Row
}.

(** What a workbook holds: the column labels as pandas reports them
    (a repeated header [Month] arrives as [Month.1]) and the cells of
    each row under these labels. *)
Record Sheet : Type := mkSheet {
  header : list string;
  body : list (list cell)
}.

Definition read_excel (sh : Sheet) : DataFrame :=
  {| columns := header sh;
     rows := (λ r, list_to_map (zip (header sh) r)) <$> body sh |}.

(** [row.get(label)], and the cell of a row in a column; a label the row
    does not have gives a null. *)
Definition get (row : Row) (label : string) : cell := default NaN (row !! label).

(** [df[label] = value] *)
Definition set_column (label : string) (value : cell) (df : DataFrame) : DataFrame :=
  {| columns := if decide (label ∈ columns df) then columns df else columns df ++ [label];
     rows := <[label := value]> <$> rows df |}.

(** [pd.concat(frames, ignore_index=True)]: the rows of the frames one
    after the other under the union of their columns; a row has nulls in
    the columns its frame lacks. *)
Definition concat (frames : list DataFrame) : DataFrame :=
  {| columns := remove_dups (frames ≫= columns);
     rows := frames ≫= rows |}.

(** [df[label]] *)
Definition col (df : DataFrame) (label : string) : result (list cell) :=
  if decide (label ∈ columns df) then Ok ((λ r, get r label) <$> rows df)
  else Raise (KeyError label).

(** *** Registration date *)

(** [pd.to_datetime] on the three fragments of one row with
    [errors="coerce"], and on the cells of the text column with
    [dayfirst=True]; the latter may choose its format from the column as
    a whole. *)
Variable to_datetime_ymd : cell → cell → cell → option Z.
Variable to_datetime_dayfirst : list cell → cell → option Z.

Definition ymd_labels : list string := ["Year"; "Month.1"; "Day"]%string.

Definition all_NaT (df : DataFrame) : list (option Z) := replicate (length (rows df)) None.

Definition date_column (df : DataFrame) : list (option Z) :=
  let c := (λ r, get r "Date"%string) <$> rows df in
  to_datetime_dayfirst c <$> c.

Definition ymd_dates (df : DataFrame) : list (option Z) :=
  (λ r, to_datetime_ymd (get r "Year"%string) (get r "Month.1"%string) (get r "Day"%string))
    <$> rows df.

Definition series_isna (s : list (option Z)) : list bool :=
  (λ d, match d with None => true | Some _ => false end) <$> s.

Definition build_register_date (df : DataFrame) : list (option Z) :=
  let fallback :=
    if decide ("Date"%string ∈ columns df) then date_column df else all_NaT df in
  if decide (ymd_labels ⊆ columns df) then
    let s := ymd_dates df in
    if lt_09 (mean (series_isna s)) then s else fallback
  else fallback.

(** *** Status *)

Definition pregnancy_status (row : Row) : Status :=
  if notna (get row "S1"%string) then Pregnant
  else if notna (get row "S2"%string) then Has_Child
  else Unknown.

(** *** Predictions *)

(** The float64 quotient of two durations rounded by [Series.round(1)]. *)
Variable div_round1 : Z → Z → Q.
(** [pd.Timestamp.today().normalize()], taken once per run. *)
Variable today : Z.

Definition predicted_giving_birth_date
    (status : list Status) (reg : list (option Z)) : result (list (option Z)) :=
  let column := replicate (length status) (None : option Z) in
  let mask_preg := (λ s, bool_decide (s = Pregnant)) <$> status in
  values ← mapM (λ d, ts_add d (PREDICT_REMAINING_WEEKS * 7 * day_ns)) (select mask_preg reg);
  Ok (assign mask_preg column values).

Definition child_age_months
    (status : list Status) (reg : list (option Z)) : result (list (option Q)) :=
  let column := replicate (length status) (None : option Q) in
  let mask_child := (λ s, bool_decide (s = Has_Child)) <$> status in
  deltas ← mapM (ts_rsub today) (select mask_child reg);
  let values := (λ d : option Z, (λ x, div_round1 x (30 * day_ns)) <$> d) <$> deltas in
  Ok (assign mask_child column values).

(** *** Fake score *)

Definition fake_score (first : list cell) (mobile_norm : list pystr)
    (reg : list (option Z)) (age : list (option Q)) : list Z :=
  let score := (λ x, 0 + x) <$> smul (astype_int (isna <$> first)) 20 in
  let score := sadd score (smul (astype_int ((λ s, bool_decide (length s < 9)%nat) <$> mobile_norm)) 25) in
  let score := sadd score (smul (astype_int (duplicated_keep_false mobile_norm)) 20) in
  let score := sadd score (smul (astype_int (series_isna reg)) 15) in
  let score := sadd score (smul (astype_int ((λ a, gt_72 (default 0%Q a)) <$> age)) 20) in
  clip 0 100 <$> score.

(** *** The table *)

(** A row of the final table: the columns it was read with and the
    columns the script adds.  Every added column is written before it is
    read, so a column of the input under one of these names plays no
    role. *)
Record Rec : Type := mkRec {
  raw : Row;
  Mobile_norm : pystr;
  Register_Date : option Z;
  Pregnancy_Status : Status;
  Predicted_Giving_Birth_Date : option Z;
  Child_Age_Months : option Q;
  Fake_Score : Z;
  Confidence_Label : option Label;
  Sales_Ready : bool
}.

(** The stages between the merge and the sort. *)
Definition enrich (data : DataFrame) : result (list Rec) :=
  mobile ← col data "Mobile"%string;
  let mobile_norm := normalize_phone <$> mobile in
  let register_date := build_register_date data in
  let status := pregnancy_status <$> rows data in
  predicted ← predicted_giving_birth_date status register_date;
  age ← child_age_months status register_date;
  first ← col data "FirstName"%string;
  let score := fake_score first mobile_norm register_date age in
  let label := cut <$> score in
  let ready := (λ s, bool_decide (s ≤ DEFAULT_FAKE_THRESHOLD)) <$> score in
  Ok (mkRec <$> rows data <@> mobile_norm <@> register_date <@> status
        <@> predicted <@> age <@> score <@> label <@> ready).

(** *** Ranking *)

(** Ascending order on dates with [NaT] last ([na_position="last"]). *)
Definition date_le (a b : option Z) : bool :=
  match a, b with
  | Some x, Some y => x <=? y
  | _, None => true
  | None, Some _ => false
  end.

Definition key_le (a b : Rec) : bool :=
  (Fake_Score a <? Fake_Score b)
  || (Fake_Score a =? Fake_Score b) && date_le (Register_Date a) (Register_Date b).

Fixpoint insert_sorted (x : Rec) (l : list Rec) : list Rec :=
  match l with
  | [] => [x]
  | y :: l' => if key_le x y then x :: l else y :: insert_sorted x l'
  end.

(** [data.sort_values(["Fake_Score", "Register_Date"])].  With several
    keys pandas sorts lexicographically and stably; a stable sort has
    one possible result, which straight insertion computes. *)
Definition sort_values (t : list Rec) : list Rec := foldr insert_sorted [] t.

(** *** Entry point *)

Inductive outcome : Type :=
| Stopped
| Exported (table : list Rec)
| Failed (e : exn).

(** The workbooks of the input folder, by base name, with the previous
    output left out, each tagged with its origin. *)
Definition sources (listing : list (pystr * Sheet)) : list (pystr * Sheet) :=
  filter (λ f, f.1 ≠ OUTPUT_FILE) listing.

Definition merge (files : list (pystr * Sheet)) : DataFrame :=
  concat ((λ f, set_column "Source_File"%string (Str f.1) (read_excel f.2)) <$> files).

Definition main (listing : list (pystr * Sheet)) : outcome :=
  let files := sources listing in
  match files with
  | [] => Stopped
  | _ =>
      match enrich (merge files) with
      | Ok table => Exported (sort_values table)
      | Raise e => Failed e
      end
  end.

End Model.

Arguments NaN {obj}.
Arguments Str {obj} s.
Arguments Obj {obj} o.
Arguments isna {obj} x.
Arguments notna {obj} x.
Arguments str {obj} str_obj x.
Arguments normalize_phone {obj} str_obj unicode_Nd x.
Arguments mkSheet {obj} header body.
Arguments header {obj} s.
Arguments body {obj} s.
Arguments mkFrame {obj} columns rows.
Arguments columns {obj} d.
Arguments rows {obj} d.
Arguments read_excel {obj} sh.
Arguments get {obj} row label.
Arguments set_column {obj} label value df.
Arguments concat {obj} frames.
Arguments col {obj} df label.
Arguments all_NaT {obj} df.
Arguments date_column {obj} to_datetime_dayfirst df.
Arguments ymd_dates {obj} to_datetime_ymd df.
Arguments build_register_date {obj} to_datetime_ymd to_datetime_dayfirst df.
Arguments pregnancy_status {obj} row.
Arguments fake_score {obj} first mobile_norm reg age.
Arguments mkRec {obj}.
Arguments raw {obj} r.
Arguments Mobile_norm {obj} r.
Arguments Register_Date {obj} r.
Arguments Pregnancy_Status {obj} r.
Arguments Predicted_Giving_Birth_Date {obj} r.
Arguments Child_Age_Months {obj} r.
Arguments Fake_Score {obj} r.
Arguments Confidence_Label {obj} r.
Arguments Sales_Ready {obj} r.
Arguments enrich {obj} str_obj unicode_Nd to_datetime_ymd to_datetime_dayfirst div_round1 today data.
Arguments key_le {obj} a b.
Arguments insert_sorted {obj} x l.
Arguments sort_values {obj} t.
Arguments Stopped {obj}.
Arguments Exported {obj} table.
Arguments Failed {obj} e.
Arguments sources {obj} listing.
Arguments merge {obj} files.
Arguments main {obj} str_obj unicode_Nd to_datetime_ymd to_datetime_dayfirst div_round1 today listing.

(** ** A concrete instance

    Numeric cells hold integers that the spreadsheet stores as floats,
    dates are parsed by the civil calendar, and the age is rounded in
    exact arithmetic.  The examples below run in this instance. *)

Module Demo.

(** [str(float(k))] for an integer [k] of fewer than 17 digits. *)
Definition str_num (k : Z) : pystr :=
  lit (DecimalString.NilZero.string_of_int (Z.to_int k)) ++ lit ".0".

Definition ascii_only (c : N) : bool := false.

Definition is_leap (y : Z) : bool :=
  (y mod 4 =? 0) && (negb (y mod 100 =? 0) || (y mod 400 =? 0)).

Definition days_in_month (y m : Z) : Z :=
  if m =? 2 then (if is_leap y then 29 else 28)
  else if (m =? 4) || (m =? 6) || (m =? 9) || (m =? 11) then 30
  else 31.

(** Days from 1970-01-01 to the given day of the proleptic Gregorian calendar. *)
Definition days_from_civil (y m d : Z) : Z :=
  let y' := if m <=? 2 then y - 1 else y in
  let era := y' / 400 in
  let yoe := y' - era * 400 in
  let mp := (m + 9) mod 12 in
  let doy := (153 * mp + 2) / 5 + d - 1 in
  let doe := yoe * 365 + yoe / 4 - yoe / 100 + doy in
  era * 146097 + doe - 719468.

Definition civil (y m d : Z) : option Z :=
  if (1 <=? m) && (m <=? 12) && (1 <=? d) && (d <=? days_in_month y m)
     && in_i64 (days_from_civil y m d * day_ns)
  then Some (days_from_civil y m d * day_ns)
  else None.

Definition to_datetime_ymd (y m d : cell Z) : option Z :=
  match y, m, d with
  | Obj y, Obj m, Obj d => civil y m d
  | _, _, _ => None
  end.

(** Decimal value of a run of ASCII digits. *)
Definition number (s : pystr) : option Z :=
  match s with
  | [] => None
  | _ =>
      foldl (λ acc c, n ← acc;
                      if ((48 <=? c) && (c <=? 57))%N
                      then Some (10 * n + Z.of_N (c - 48)) else None)
            (Some 0) s
  end.

Fixpoint split_on (sep : N) (s : pystr) : list pystr :=
  match s with
  | [] => [[]]
  | c :: s' =>
      if (c =? sep)%N then [] :: split_on sep s'
      else match split_on sep s' with
           | w :: ws => (c :: w) :: ws
           | [] => [[c]]
           end
  end.

(** [dd/mm/yyyy] *)
Definition to_datetime_dayfirst (_ : list (cell Z)) (x : cell Z) : option Z :=
  match x with
  | Str s =>
      match number <$> split_on 47 s with
      | [Some d; Some m; Some y] => civil y m d
      | _ => None
      end
  | _ => None
  end.

(** The quotient to one decimal, ties to the even digit. *)
Definition div_round1 (a b : Z) : Q :=
  let n := 10 * a in
  let q := n / b in
  let r := n mod b in
  let t := if 2 * r <? b then q
           else if b <? 2 * r then q + 1
           else if Z.even q then q else q + 1 in
  (t # 10)%Q.

Definition today : Z := days_from_civil 2026 1 1 * day_ns.

Definition labels : list string :=
  ["FirstName"; "Mobile"; "S1"; "S2"; "Year"; "Month.1"; "Day"; "Date"]%string.

Definition row (name : option string) (mobile : cell Z) (s1 s2 : bool)
    (ymd : option (Z * Z * Z)) (date : option string) : list (cell Z) :=
  [ from_option (λ s, Str (lit s)) NaN name; mobile;
    if s1 then Str (lit "x") else NaN; if s2 then Str (lit "x") else NaN;
    from_option (λ d, Obj d.1.1) NaN ymd; from_option (λ d, Obj d.1.2) NaN ymd;
    from_option (λ d, Obj d.2) NaN ymd;
    from_option (λ s, Str (lit s)) NaN date ].

Definition sheet_a : Sheet Z :=
  mkSheet labels
    [ row (Some "Lan") (Obj 901234567) true false (Some (2025, 11, 3)) None;
      row None (Str (lit "12345")) false false (Some (2025, 10, 20)) None;
      row (Some "Mai") (Str (lit "0901 234 567")) false true (Some (2019, 1, 15)) None ]%string.

Definition sheet_b : Sheet Z :=
  mkSheet labels
    [ row (Some "Hoa") (Str (lit "0901234567.0")) true true (Some (2025, 2, 30))
          (Some "28/02/2025");
      row None NaN false false None None;
      row None (Str (lit "n/a")) false true None (Some "01/03/2025") ]%string.

Definition listing : list (pystr * Sheet Z) :=
  [ (lit "a.xlsx", sheet_a); (OUTPUT_FILE, sheet_b); (lit "b.xlsx", sheet_b) ].

Definition run : outcome Z :=
  main str_num ascii_only to_datetime_ymd to_datetime_dayfirst div_round1 today listing.

(** The exported table of the run and its records by position. *)
Definition out : list (Rec Z) :=
  match run with Exported table => table | _ => [] end.

Definition blank : Rec Z := mkRec ∅ [] None Unknown None None 0 None false.

Definition pick (i : nat) : Rec Z := default blank (out !! i).

(** The merged frame of the run. *)
Definition data : DataFrame Z := merge (sources listing).

(** A second folder: one workbook with date fragments and one that has
    only the date text. *)
Definition sheet_c : Sheet Z :=
  mkSheet ["FirstName"; "Mobile"; "S2"; "Date"]%string
    [ [Str (lit "Thu"); Str (lit "0987 654 321"); Str (lit "x"); Str (lit "05/06/2024")];
      [Str (lit "Nga"); Str (lit "0977000111"); NaN; Str (lit "17/09/2025")] ].

Definition listing_mixed : list (pystr * Sheet Z) :=
  [ (lit "a.xlsx", sheet_a); (lit "c.xlsx", sheet_c) ].

Definition out_mixed : list (Rec Z) :=
  match main str_num ascii_only to_datetime_ymd to_datetime_dayfirst div_round1 today
          listing_mixed with
  | Exported table => table
  | _ => []
  end.

Definition pick_mixed (i : nat) : Rec Z := default blank (out_mixed !! i).

(** A folder whose only workbook has no [Mobile] column. *)
Definition listing_no_mobile : list (pystr * Sheet Z) :=
  [ (lit "c.xlsx", mkSheet ["FirstName"%string] [[Str (lit "An")]]) ].

End Demo.

#[local] Abbreviation demo_main :=
  (main Demo.str_num Demo.ascii_only Demo.to_datetime_ymd Demo.to_datetime_dayfirst
     Demo.div_round1 Demo.today).
#[local] Abbreviation demo_normalize_phone :=
  (normalize_phone Demo.str_num Demo.ascii_only).
#[local] Abbreviation demo_build_register_date :=
  (build_register_date Demo.to_datetime_ymd Demo.to_datetime_dayfirst).


(** ** Properties read off the specification *)

(** The reading of "exactly one of the two predictions is populated, in
    agreement with the status" for one row of the table. *)
Definition exactly_one_prediction {obj} (r : Rec obj) : Prop :=
  (is_Some (Predicted_Giving_Birth_Date r) ∧ Child_Age_Months r = None
   ∧ Pregnancy_Status r = Pregnant)
  ∨ (Predicted_Giving_Birth_Date r = None ∧ is_Some (Child_Age_Months r)
     ∧ Pregnancy_Status r = Has_Child).

(** The five signals of a row of a table, as the scoring rules word them. *)
Definition signal (w : Z) (b : bool) : Z := if b then w else 0.

Definition missing_name {obj} (r : Rec obj) : bool := isna (get (raw r) "FirstName"%string).
Definition invalid_phone {obj} (r : Rec obj) : bool := bool_decide (length (Mobile_norm r) < 9)%nat.
Definition duplicate_phone {obj} (t : list (Rec obj)) (r : Rec obj) : bool :=
  bool_decide (1 < occurrences (Mobile_norm r) (Mobile_norm <$> t))%nat.
Definition missing_date {obj} (r : Rec obj) : bool := bool_decide (Register_Date r = None).
Definition unrealistic_age {obj} (r : Rec obj) : bool := gt_72 (default 0%Q (Child_Age_Months r)).

Definition raw_score {obj} (t : list (Rec obj)) (r : Rec obj) : Z :=
  signal 20 (missing_name r) + signal 25 (invalid_phone r)
  + signal 20 (duplicate_phone t r) + signal 15 (missing_date r)
  + signal 20 (unrealistic_age r).

(** Records with a given score and registration date. *)
Definition date_eqb (a b : option Z) : bool :=
  match a, b with
  | Some x, Some y => x =? y
  | None, None => true
  | _, _ => false
  end.

Definition same_key {obj} (s : Z) (d : option Z) (r : Rec obj) : bool :=
  (Fake_Score r =? s) && date_eqb (Register_Date r) d.

(** * Proofs *)

(** ** Strings *)

Lemma sub_nondigits_digits nd (s : pystr) :
  Forall (λ c, is_digit nd c = true) (sub_nondigits nd s).
Proof.
  unfold sub_nondigits. apply Forall_forall. intros c Hc.
  by apply list_elem_of_filter in Hc as [Hd _].
Qed.

Lemma lstrip_suffix (s : pystr) : lstrip s `suffix_of` s.
Proof.
  induction s as [|c s IH]; simpl; [done|].
  destruct (is_space c); [by apply suffix_cons_r | done].
Qed.

Lemma lstrip_head (s : pystr) c s' : lstrip s = c :: s' → is_space c = false.
Proof.
  induction s as [|a s IH]; simpl; [done|].
  destruct (is_space a) eqn:Ha; [done|]. intros [= -> _]. done.
Qed.

(** After [strip] a string neither starts nor ends with white space, so
    the newline alternative of [$] never applies in [normalize_phone]. *)
Lemma strip_last (s : pystr) c : last (strip s) = Some c → is_space c = false.
Proof.
  unfold strip, rstrip. intros H.
  rewrite last_reverse in H.
  destruct (lstrip (reverse (lstrip s))) as [|a l] eqn:E; [done|].
  simpl in H. injection H as ->. by eapply lstrip_head.
Qed.

(** ** Labels and threshold *)

Lemma clip_range x : 0 ≤ clip 0 100 x ≤ 100.
Proof. unfold clip. lia. Qed.

Lemma clip_id x : 0 ≤ x ≤ 100 → clip 0 100 x = x.
Proof. unfold clip. lia. Qed.

Lemma cut_spec x :
  0 ≤ x ≤ 100 →
  (x ≤ 30 → cut x = Some High)
  ∧ (30 < x ≤ 70 → cut x = Some Medium)
  ∧ (70 < x → cut x = Some Low).
Proof.
  intros Hx. unfold cut.
  repeat split; intros;
    repeat (match goal with
            | |- context [?a <? ?b] => destruct (Z.ltb_spec a b)
            | |- context [?a <=? ?b] => destruct (Z.leb_spec a b)
            end; simpl; try lia); done.
Qed.

Lemma signal_range w b : 0 ≤ w → 0 ≤ signal w b ≤ w.
Proof. destruct b; simpl; lia. Qed.

(** ** Series *)

Lemma mapM_Ok_cons {A B} (f : A → result B) x l k :
  mapM f (x :: l) = Ok k → ∃ y k', k = y :: k' ∧ f x = Ok y ∧ mapM f l = Ok k'.
Proof.
  simpl. unfold mbind, result_bind, mret, result_ret.
  destruct (f x) as [y|e]; [|done].
  destruct (mapM f l) as [k'|e]; [|done].
  intros [= <-]. eauto.
Qed.

Lemma mapM_Ok_intro {A B} (f : A → result B) (l : list A) :
  Forall (λ x, ∃ y, f x = Ok y) l → ∃ k, mapM f l = Ok k.
Proof.
  induction 1 as [|x l [y Hy] _ [k Hk]]; [by exists []|].
  exists (y :: k). simpl. rewrite Hy. simpl. by rewrite Hk.
Qed.

Lemma select_Forall {A} (P : A → Prop) mask (s : list A) :
  Forall P s → Forall P (select mask s).
Proof.
  intros H. revert mask. induction H as [|x s Hx _ IH]; intros [|[] mask]; simpl; auto.
Qed.

(** What [data.loc[mask, c] = f(data.loc[mask, d])] leaves in column
    [c]: the rows of the mask hold the image of their own value of [d],
    the other rows are untouched. *)
Lemma assign_select_lookup {A B C} (f : A → result B) (h : B → C)
    (mask : list bool) (s : list C) (reg : list A) (values : list B) :
  mapM f (select mask reg) = Ok values →
  length s = length mask → length reg = length mask →
  length (assign mask s (h <$> values)) = length mask
  ∧ ∀ (i : nat) (m : bool) x d, mask !! i = Some m → s !! i = Some x → reg !! i = Some d →
      ∃ y, assign mask s (h <$> values) !! i = Some y
           ∧ if m then ∃ v, f d = Ok v ∧ y = h v else y = x.
Proof.
  revert s reg values.
  induction mask as [|m mask IH]; intros [|x s] [|d reg] values Hv Hs Hr;
    simplify_eq/=; [by split; [|intros []]|].
  destruct m.
  - apply mapM_Ok_cons in Hv as (y & k' & -> & Hy & Hk).
    destruct (IH s reg k' Hk) as [Hlen Hrow]; [done..|].
    split; [simpl; f_equal; exact Hlen|].
    intros [|i] m' x' d' ???; simplify_eq/=; eauto.
  - destruct (IH s reg values Hv) as [Hlen Hrow]; [done..|].
    split; [simpl; f_equal; exact Hlen|].
    intros [|i] m' x' d' ???; simplify_eq/=; eauto.
Qed.

Lemma zap_lookup {A B} (fs : list (A → B)) (xs : list A) (i : nat) y :
  (fs <@> xs) !! i = Some y ↔ ∃ f x, fs !! i = Some f ∧ xs !! i = Some x ∧ y = f x.
Proof.
  unfold zap. rewrite lookup_zip_with_Some. naive_solver.
Qed.

Lemma zap_length {A B} (fs : list (A → B)) (xs : list A) :
  length xs = length fs → length (fs <@> xs) = length fs.
Proof. intros H. unfold zap. rewrite length_zip_with. lia. Qed.

Lemma sadd_lookup (s t : list Z) (i : nat) z :
  sadd s t !! i = Some z ↔ ∃ x y, s !! i = Some x ∧ t !! i = Some y ∧ z = x + y.
Proof. unfold sadd. rewrite lookup_zip_with_Some. naive_solver. Qed.

Lemma signal_column (w : Z) (s : list bool) (i : nat) z :
  smul (astype_int s) w !! i = Some z ↔ ∃ b, s !! i = Some b ∧ z = signal w b.
Proof.
  unfold smul, astype_int. rewrite <- list_fmap_compose, list_lookup_fmap.
  destruct (s !! i) as [b|]; simpl; [|naive_solver].
  split.
  - intros [= <-]. exists b. split; [done|]. destruct b; simpl; lia.
  - intros (b' & [= <-] & ->). f_equal. destruct b; simpl; lia.
Qed.

(** ** Duplicates *)

Section Occurrences.
Context {A : Type} `{EqDecision A}.

Lemma occurrences_cons (x a : A) (s : list A) :
  occurrences x (a :: s) = ((if decide (a = x) then 1 else 0) + occurrences x s)%nat.
Proof.
  unfold occurrences. rewrite filter_cons. by destruct (decide (a = x)).
Qed.

Lemma occurrences_pos (x : A) (s : list A) :
  (0 < occurrences x s)%nat ↔ x ∈ s.
Proof.
  unfold occurrences. split.
  - intros H. destruct (filter (λ y, y = x) s) as [|y l] eqn:E; [simpl in H; lia|].
    assert (y ∈ filter (λ y, y = x) s) as Hy by (rewrite E; left).
    apply list_elem_of_filter in Hy as [-> ?]. done.
  - intros H. assert (x ∈ filter (λ y, y = x) s) as Hx by (by apply list_elem_of_filter).
    destruct (filter (λ y, y = x) s); [by apply elem_of_nil in Hx | simpl; lia].
Qed.

Lemma occurrences_Permutation (x : A) (s t : list A) :
  s ≡ₚ t → occurrences x s = occurrences x t.
Proof. intros H. unfold occurrences. by rewrite H. Qed.

(** A value occurs more than once exactly when two different rows hold it. *)
Lemma occurrences_twice (x : A) (s : list A) :
  (1 < occurrences x s)%nat ↔ ∃ i j : nat, i ≠ j ∧ s !! i = Some x ∧ s !! j = Some x.
Proof.
  induction s as [|a s IH].
  - split; [unfold occurrences; simpl; lia | by intros (i & j & _ & ? & _)].
  - rewrite occurrences_cons. split.
    + destruct (decide (a = x)) as [->|Hne]; intros H.
      * assert (x ∈ s) as Hx by (apply occurrences_pos; lia).
        apply list_elem_of_lookup in Hx as [j Hj].
        exists 0%nat, (S j). done.
      * destruct IH as [IH _]. destruct IH as (i & j & Hij & Hi & Hj); [lia|].
        exists (S i), (S j). split; [lia | done].
    + intros (i & j & Hij & Hi & Hj).
      destruct i as [|i], j as [|j]; simplify_eq/=.
      * rewrite decide_True by done.
        assert (0 < occurrences x s)%nat; [|lia].
        apply occurrences_pos, list_elem_of_lookup. eauto.
      * rewrite decide_True by done.
        assert (0 < occurrences x s)%nat; [|lia].
        apply occurrences_pos, list_elem_of_lookup. eauto.
      * assert (1 < occurrences x s)%nat; [|lia].
        apply IH. exists i, j. split; [lia | done].
Qed.

Lemma duplicated_lookup (s : list A) (i : nat) b :
  duplicated_keep_false s !! i = Some b
  ↔ ∃ x, s !! i = Some x ∧ b = bool_decide (1 < occurrences x s)%nat.
Proof.
  unfold duplicated_keep_false. rewrite list_lookup_fmap.
  destruct (s !! i); simpl; naive_solver.
Qed.

End Occurrences.

(** ** The stages, row by row *)

Section Proofs.

Context {obj : Type}.
Context (str_obj : obj → pystr) (unicode_Nd : N → bool).
Context (to_datetime_ymd : cell obj → cell obj → cell obj → option Z).
Context (to_datetime_dayfirst : list (cell obj) → cell obj → option Z).
Context (div_round1 : Z → Z → Q) (today : Z).

#[local] Abbreviation normalize_phone := (normalize_phone str_obj unicode_Nd).
#[local] Abbreviation build_register_date :=
  (build_register_date to_datetime_ymd to_datetime_dayfirst).
#[local] Abbreviation predicted_giving_birth_date := (predicted_giving_birth_date).
#[local] Abbreviation child_age_months := (child_age_months div_round1 today).
#[local] Abbreviation enrich :=
  (enrich str_obj unicode_Nd to_datetime_ymd to_datetime_dayfirst div_round1 today).
#[local] Abbreviation main :=
  (main str_obj unicode_Nd to_datetime_ymd to_datetime_dayfirst div_round1 today).

Implicit Types (data : DataFrame obj) (table out : list (Rec obj)) (r : Rec obj).
Implicit Types (first : list (cell obj)) (mobile_norm : list pystr).
Implicit Types (reg : list (option Z)) (age : list (option Q)).

Lemma col_length data label c : col data label = Ok c → length c = length (rows data).
Proof.
  unfold col. case_decide; [|done]. intros [= <-]. by rewrite length_fmap.
Qed.

Lemma col_lookup data label c (i : nat) x :
  col data label = Ok c →
  c !! i = Some x ↔ ∃ row, rows data !! i = Some row ∧ x = get row label.
Proof.
  unfold col. case_decide; [|done]. intros [= <-]. rewrite list_lookup_fmap.
  destruct (rows data !! i); simpl; naive_solver.
Qed.

Lemma build_register_date_length data :
  length (build_register_date data) = length (rows data).
Proof.
  unfold build_register_date, date_column, ymd_dates, all_NaT.
  repeat case_decide; repeat case_match;
    rewrite ?length_fmap, ?length_replicate; done.
Qed.

Lemma predicted_lookup status reg predicted :
  predicted_giving_birth_date status reg = Ok predicted →
  length reg = length status →
  length predicted = length status
  ∧ ∀ (i : nat) st d, status !! i = Some st → reg !! i = Some d →
      ∃ p, predicted !! i = Some p
           ∧ if decide (st = Pregnant)
             then ts_add d (PREDICT_REMAINING_WEEKS * 7 * day_ns) = Ok p
             else p = None.
Proof.
  unfold predicted_giving_birth_date. intros H Hlen.
  destruct (mapM _ _) as [values|e] eqn:Hv; [|done]. simpl in H. injection H as <-.
  destruct (assign_select_lookup _ id _ (replicate (length status) None) _ _ Hv)
    as [Hl Hrow];
    [ by rewrite length_replicate, length_fmap | by rewrite length_fmap |].
  rewrite list_fmap_id in Hl, Hrow. rewrite length_fmap in Hl. split; [exact Hl|].
  intros i st d Hst Hd.
  destruct (Hrow i (bool_decide (st = Pregnant)) None d) as (p & Hp & Hm).
  - by rewrite list_lookup_fmap, Hst.
  - apply lookup_replicate_2. by eapply lookup_lt_Some.
  - done.
  - exists p. split; [done|]. case_decide.
    + rewrite bool_decide_eq_true_2 in Hm by done. by destruct Hm as (v & ? & ->).
    + by rewrite bool_decide_eq_false_2 in Hm.
Qed.

Lemma child_age_lookup status reg age :
  child_age_months status reg = Ok age →
  length reg = length status →
  length age = length status
  ∧ ∀ (i : nat) st d, status !! i = Some st → reg !! i = Some d →
      ∃ a, age !! i = Some a
           ∧ if decide (st = Has_Child)
             then ∃ delta, ts_rsub today d = Ok delta
                           ∧ a = (λ x, div_round1 x (30 * day_ns)) <$> delta
             else a = None.
Proof.
  unfold child_age_months. intros H Hlen.
  destruct (mapM _ _) as [deltas|e] eqn:Hv; [|done]. simpl in H. injection H as <-.
  destruct (assign_select_lookup _ (fmap (λ x, div_round1 x (30 * day_ns))) _
              (replicate (length status) None) _ _ Hv) as [Hl Hrow];
    [ by rewrite length_replicate, length_fmap | by rewrite length_fmap |].
  rewrite length_fmap in Hl. split; [exact Hl|].
  intros i st d Hst Hd.
  destruct (Hrow i (bool_decide (st = Has_Child)) None d) as (a & Ha & Hm).
  - by rewrite list_lookup_fmap, Hst.
  - apply lookup_replicate_2. by eapply lookup_lt_Some.
  - done.
  - exists a. split; [done|]. case_decide.
    + by rewrite bool_decide_eq_true_2 in Hm.
    + by rewrite bool_decide_eq_false_2 in Hm.
Qed.

Lemma fake_score_length first mobile_norm reg age :
  length mobile_norm = length first → length reg = length first →
  length age = length first →
  length (fake_score first mobile_norm reg age) = length first.
Proof.
  intros. unfold fake_score, sadd, smul, astype_int, duplicated_keep_false, series_isna.
  rewrite !length_fmap, !length_zip_with, !length_fmap.
  lia.
Qed.

(** The score of row [i] is the clipped sum of its five signals. *)
Lemma fake_score_lookup first mobile_norm reg age (i : nat) z :
  fake_score first mobile_norm reg age !! i = Some z →
  ∃ f m d a,
    first !! i = Some f ∧ mobile_norm !! i = Some m ∧ reg !! i = Some d
    ∧ age !! i = Some a
    ∧ z = clip 0 100
            (signal 20 (isna f)
             + signal 25 (bool_decide (length m < 9)%nat)
             + signal 20 (bool_decide (1 < occurrences m mobile_norm)%nat)
             + signal 15 (bool_decide (d = None))
             + signal 20 (gt_72 (default 0%Q a))).
Proof.
  unfold fake_score. rewrite list_lookup_fmap.
  destruct (_ !! i) as [s|] eqn:Hs; [|done]. intros [= <-].
  apply sadd_lookup in Hs as (s4 & x5 & Hs & H5 & ->).
  apply sadd_lookup in Hs as (s3 & x4 & Hs & H4 & ->).
  apply sadd_lookup in Hs as (s2 & x3 & Hs & H3 & ->).
  apply sadd_lookup in Hs as (s1 & x2 & Hs & H2 & ->).
  rewrite list_lookup_fmap in Hs.
  destruct (_ !! i) as [x1|] eqn:H1 in Hs; [|done]. injection Hs as <-.
  apply signal_column in H1 as (b1 & H1 & ->).
  apply signal_column in H2 as (b2 & H2 & ->).
  apply signal_column in H3 as (b3 & H3 & ->).
  apply signal_column in H4 as (b4 & H4 & ->).
  apply signal_column in H5 as (b5 & H5 & ->).
  rewrite list_lookup_fmap in H1. rewrite list_lookup_fmap in H2.
  rewrite list_lookup_fmap in H5.
  apply duplicated_lookup in H3 as (m & Hm & ->).
  unfold series_isna in H4. rewrite list_lookup_fmap in H4.
  destruct (first !! i) as [f|]; [|done].
  destruct (reg !! i) as [d|]; [|done].
  destruct (age !! i) as [a|]; [|done].
  rewrite Hm in H2. simplify_eq/=.
  exists f, m, d, a. repeat split; try done.
  f_equal.
  destruct d; [rewrite (bool_decide_eq_false_2 (_ = None)) by done
              | rewrite (bool_decide_eq_true_2 (_ = None)) by done]; lia.
Qed.

(** The columns that [enrich] puts together. *)
Lemma enrich_inv data table :
  enrich data = Ok table →
  ∃ mobile first predicted age,
    col data "Mobile"%string = Ok mobile
    ∧ col data "FirstName"%string = Ok first
    ∧ predicted_giving_birth_date (pregnancy_status <$> rows data)
        (build_register_date data) = Ok predicted
    ∧ child_age_months (pregnancy_status <$> rows data)
        (build_register_date data) = Ok age
    ∧ let score := fake_score first (normalize_phone <$> mobile)
                     (build_register_date data) age in
      table = mkRec <$> rows data <@> (normalize_phone <$> mobile)
                <@> build_register_date data <@> (pregnancy_status <$> rows data)
                <@> predicted <@> age <@> score <@> (cut <$> score)
                <@> ((λ s, bool_decide (s ≤ DEFAULT_FAKE_THRESHOLD)) <$> score).
Proof.
  unfold enrich. intros H.
  destruct (col data "Mobile") as [mobile|] eqn:Hm; [|done].
  simpl in H.
  destruct (predicted_giving_birth_date _ _) as [predicted|] eqn:Hp; [|done].
  simpl in H.
  destruct (child_age_months _ _) as [age|] eqn:Ha; [|done].
  simpl in H.
  destruct (col data "FirstName") as [first|] eqn:Hf; [|done].
  simpl in H. injection H as <-.
  exists mobile, first, predicted, age. done.
Qed.

Lemma list_eq_same_length_lookup {A} (l k : list A) :
  length l = length k →
  (∀ (i : nat) x, l !! i = Some x → k !! i = Some x) → l = k.
Proof.
  intros Hlen H. apply list_eq. intros i.
  destruct (l !! i) as [x|] eqn:Hl; [by rewrite (H _ _ Hl)|].
  symmetry. apply lookup_ge_None. apply lookup_ge_None in Hl. lia.
Qed.

(** Lengths of columns built from columns of known length. *)
Ltac column_length :=
  match goal with
  | |- context [length (_ <$> _)] => rewrite length_fmap; column_length
  | |- context [length (_ <@> _)] => rewrite zap_length; column_length
  | |- context [length (fake_score _ _ _ _)] =>
      rewrite fake_score_length; column_length
  | _ => congruence
  end.

(** Row [i] of the table that [enrich] yields, column by column. *)
Lemma enrich_row data table (i : nat) r :
  enrich data = Ok table → table !! i = Some r →
  ∃ mobile first predicted age,
    col data "Mobile"%string = Ok mobile
    ∧ col data "FirstName"%string = Ok first
    ∧ predicted_giving_birth_date (pregnancy_status <$> rows data)
        (build_register_date data) = Ok predicted
    ∧ child_age_months (pregnancy_status <$> rows data)
        (build_register_date data) = Ok age
    ∧ rows data !! i = Some (raw r)
    ∧ (normalize_phone <$> mobile) !! i = Some (Mobile_norm r)
    ∧ build_register_date data !! i = Some (Register_Date r)
    ∧ Pregnancy_Status r = pregnancy_status (raw r)
    ∧ predicted !! i = Some (Predicted_Giving_Birth_Date r)
    ∧ age !! i = Some (Child_Age_Months r)
    ∧ fake_score first (normalize_phone <$> mobile) (build_register_date data) age !! i
      = Some (Fake_Score r)
    ∧ Confidence_Label r = cut (Fake_Score r)
    ∧ Sales_Ready r = bool_decide (Fake_Score r ≤ DEFAULT_FAKE_THRESHOLD).
Proof.
  intros He Hr.
  apply enrich_inv in He as (mobile & first & predicted & age & Hm & Hf & Hp & Ha & ->).
  exists mobile, first, predicted, age. simpl in Hr.
  apply zap_lookup in Hr as (f8 & ready & Hr & H8 & ->).
  apply zap_lookup in Hr as (f7 & label & Hr & H7 & ->).
  apply zap_lookup in Hr as (f6 & score & Hr & H6 & ->).
  apply zap_lookup in Hr as (f5 & a & Hr & H5 & ->).
  apply zap_lookup in Hr as (f4 & p & Hr & H4 & ->).
  apply zap_lookup in Hr as (f3 & st & Hr & H3 & ->).
  apply zap_lookup in Hr as (f2 & d & Hr & H2 & ->).
  apply zap_lookup in Hr as (f1 & m & Hr & H1 & ->).
  apply list_lookup_fmap_Some in Hr as (row & -> & Hrow).
  simpl. rewrite list_lookup_fmap, H6 in H7. rewrite list_lookup_fmap, H6 in H8.
  simpl in H7, H8.
  rewrite list_lookup_fmap, Hrow in H3. simpl in H3.
  simplify_eq/=. done.
Qed.

Lemma enrich_length data table :
  enrich data = Ok table → length table = length (rows data).
Proof.
  intros He.
  apply enrich_inv in He as (mobile & first & predicted & age & Hm & Hf & Hp & Ha & ->).
  apply col_length in Hm, Hf.
  pose proof (build_register_date_length data) as Hd.
  apply predicted_lookup in Hp as [Hp _]; [|by rewrite length_fmap].
  apply child_age_lookup in Ha as [Ha _]; [|by rewrite length_fmap].
  rewrite length_fmap in Hp, Ha. simpl.
  column_length.
Qed.

(** The phone column of the table is the normalised [Mobile] column. *)
Lemma enrich_phones data table :
  enrich data = Ok table →
  ∃ mobile, col data "Mobile"%string = Ok mobile
            ∧ Mobile_norm <$> table = normalize_phone <$> mobile.
Proof.
  intros He.
  pose proof (enrich_length _ _ He) as Hlen.
  pose proof (enrich_inv _ _ He) as (mobile & _ & _ & _ & Hm & _).
  exists mobile. split; [done|].
  apply list_eq_same_length_lookup.
  - rewrite !length_fmap, Hlen. symmetry. by eapply col_length.
  - intros i x Hx. apply list_lookup_fmap_Some in Hx as (r & -> & Hr).
    destruct (enrich_row _ _ _ _ He Hr) as (mobile' & ? & ? & ? & Hm' & ? & ? & ? & ? & Hx & _).
    congruence.
Qed.

(** ** Merge *)

Lemma merge_length (files : list (pystr * Sheet obj)) :
  length (rows (merge files)) = sum_list_with (λ f, length (body f.2)) files.
Proof.
  unfold merge, concat. simpl.
  induction files as [|f files IH]; [done|].
  rewrite fmap_cons, bind_cons, length_app, IH. simpl.
  by rewrite !length_fmap.
Qed.

(** ** Ranking *)

Lemma date_le_total (a b : option Z) : date_le a b = false → date_le b a = true.
Proof. destruct a, b; simpl; try done. intros. apply Z.leb_le. apply Z.leb_gt in H. lia. Qed.

Lemma date_le_trans (a b c : option Z) :
  date_le a b = true → date_le b c = true → date_le a c = true.
Proof.
  destruct a, b, c; simpl; try done. rewrite !Z.leb_le. lia.
Qed.

Lemma key_le_spec (a b : Rec obj) :
  key_le a b = true
  ↔ Fake_Score a < Fake_Score b
    ∨ (Fake_Score a = Fake_Score b ∧ date_le (Register_Date a) (Register_Date b) = true).
Proof.
  unfold key_le. rewrite orb_true_iff, andb_true_iff, Z.ltb_lt, Z.eqb_eq. done.
Qed.

Lemma key_le_total (a b : Rec obj) : key_le a b = false → key_le b a = true.
Proof.
  intros H. apply key_le_spec.
  destruct (Z.lt_trichotomy (Fake_Score a) (Fake_Score b)) as [Hlt|[Heq|Hgt]].
  - assert (key_le a b = true) by (apply key_le_spec; auto). congruence.
  - right. split; [done|]. apply date_le_total.
    destruct (date_le (Register_Date a) (Register_Date b)) eqn:E; [|done].
    assert (key_le a b = true) by (apply key_le_spec; auto). congruence.
  - left. lia.
Qed.

Lemma key_le_trans (a b c : Rec obj) :
  key_le a b = true → key_le b c = true → key_le a c = true.
Proof.
  rewrite !key_le_spec. intros [?|[? ?]] [?|[? ?]]; try (left; lia).
  right. split; [lia|]. by eapply date_le_trans.
Qed.

Lemma insert_sorted_Permutation (x : Rec obj) (l : list (Rec obj)) :
  insert_sorted x l ≡ₚ x :: l.
Proof.
  induction l as [|y l IH]; simpl; [done|].
  destruct (key_le x y); [done|]. rewrite IH. apply Permutation_swap.
Qed.

(** The ranker only reorders. *)
Lemma sort_values_Permutation (t : list (Rec obj)) : sort_values t ≡ₚ t.
Proof.
  induction t as [|x t IH]; simpl; [done|].
  unfold sort_values in *. simpl. by rewrite insert_sorted_Permutation, IH.
Qed.

Lemma insert_sorted_sorted (x : Rec obj) (l : list (Rec obj)) :
  StronglySorted (λ a b, key_le a b = true) l →
  StronglySorted (λ a b, key_le a b = true) (insert_sorted x l).
Proof.
  induction 1 as [|y l Hl IH Hy]; simpl; [by repeat constructor|].
  destruct (key_le x y) eqn:E.
  - constructor; [by constructor|]. constructor; [done|].
    eapply Forall_impl; [exact Hy|]. intros z Hz. by eapply key_le_trans.
  - constructor; [done|].
    rewrite insert_sorted_Permutation. constructor; [|done].
    by apply key_le_total.
Qed.

Lemma sort_values_sorted (t : list (Rec obj)) :
  StronglySorted (λ a b, key_le a b = true) (sort_values t).
Proof.
  induction t as [|x t IH]; [constructor|].
  unfold sort_values in *. simpl. by apply insert_sorted_sorted.
Qed.

Lemma StronglySorted_lookup_lt {A} (R : A → A → Prop) (l : list A) (i j : nat) a b :
  StronglySorted R l → (i < j)%nat → l !! i = Some a → l !! j = Some b → R a b.
Proof.
  intros H. revert i j. induction H as [|x l Hl IH Hx]; intros i j Hij Hi Hj; [done|].
  destruct j as [|j]; [lia|]. destruct i as [|i]; simplify_eq/=.
  - rewrite Forall_forall in Hx. apply Hx. by eapply list_elem_of_lookup_2.
  - apply (IH i j); [lia|done..].
Qed.

(** ** Runs that export *)

Lemma main_Exported listing out :
  main listing = Exported out →
  ∃ table, enrich (merge (sources listing)) = Ok table
           ∧ out = sort_values table ∧ sources listing ≠ [].
Proof.
  unfold main. destruct (sources listing) as [|f files] eqn:E; [done|].
  destruct (enrich _) as [table|e]; [|done]. intros [= <-]. by exists table.
Qed.

Lemma main_record listing out r :
  main listing = Exported out → r ∈ out →
  ∃ table (i : nat),
    enrich (merge (sources listing)) = Ok table ∧ out ≡ₚ table ∧ table !! i = Some r.
Proof.
  intros H Hr. apply main_Exported in H as (table & He & -> & _).
  rewrite sort_values_Permutation in Hr.
  apply list_elem_of_lookup in Hr as [i Hi].
  exists table, i. split; [done|]. split; [apply sort_values_Permutation | done].
Qed.

(** ** Batch threshold of the date resolver *)

Lemma series_isna_count (s : list (option Z)) :
  length (filter (λ b, b = true) (series_isna s)) = length (filter (λ d, d = None) s).
Proof.
  unfold series_isna.
  induction s as [|d s IH]; [done|].
  rewrite fmap_cons, !filter_cons.
  destruct d; repeat case_decide; simplify_eq/=; congruence.
Qed.

(** The test [s.isna().mean() < 0.9] compares the number of rows that
    failed with nine tenths of the number of rows; it fails on an empty
    series. *)
Lemma lt_09_mean (s : list (option Z)) :
  lt_09 (mean (series_isna s)) = true
  ↔ 10 * Z.of_nat (length (filter (λ d, d = None) s)) < 9 * Z.of_nat (length s).
Proof.
  unfold mean. rewrite series_isna_count.
  destruct (series_isna s) as [|b bs] eqn:E.
  - apply (f_equal length) in E. unfold series_isna in E. rewrite length_fmap in E.
    simpl in *. destruct s; [|done]. simpl. split; [done | lia].
  - assert (length (series_isna s) = length s) as Hlen
      by (unfold series_isna; apply length_fmap).
    rewrite <- E, Hlen.
    assert (length s ≠ 0)%nat as Hn by (rewrite <- Hlen, E; done).
    unfold lt_09. rewrite negb_true_iff, <- not_true_iff_false, Qle_bool_iff.
    unfold Qle. simpl.
    replace (Z.pos (Pos.of_nat (length s))) with (Z.of_nat (length s)); [lia|].
    rewrite <- (Nat2Pos.id (length s)) at 1 by done. apply positive_nat_Z.
Qed.

(** ** Scores of the rows of a table *)

Lemma raw_score_range table r : 0 ≤ raw_score table r ≤ 100.
Proof.
  unfold raw_score.
  pose proof (signal_range 20 (missing_name r)).
  pose proof (signal_range 25 (invalid_phone r)).
  pose proof (signal_range 20 (duplicate_phone table r)).
  pose proof (signal_range 15 (missing_date r)).
  pose proof (signal_range 20 (unrealistic_age r)). lia.
Qed.

Lemma duplicate_phone_Permutation table out r :
  out ≡ₚ table → duplicate_phone out r = duplicate_phone table r.
Proof.
  intros H. unfold duplicate_phone.
  by rewrite (occurrences_Permutation _ (Mobile_norm <$> out) (Mobile_norm <$> table))
    by (by apply fmap_Permutation).
Qed.

Lemma raw_score_Permutation table out r :
  out ≡ₚ table → raw_score out r = raw_score table r.
Proof. intros H. unfold raw_score. by rewrite (duplicate_phone_Permutation _ _ _ H). Qed.

Lemma enrich_score data table (i : nat) r :
  enrich data = Ok table → table !! i = Some r →
  Fake_Score r = clip 0 100 (raw_score table r).
Proof.
  intros He Hr.
  destruct (enrich_phones _ _ He) as (mobile0 & Hm0 & Hphones).
  destruct (enrich_row _ _ _ _ He Hr)
    as (mobile & first & predicted & age & Hm & Hf & _ & _ & Hrow & Hph & Hd & _ & _
        & Ha & Hs & _).
  assert (mobile0 = mobile) as -> by congruence.
  apply fake_score_lookup in Hs as (f & m & d & a & Hf' & Hm' & Hd' & Ha' & ->).
  apply (col_lookup _ _ _ i f) in Hf. apply Hf in Hf' as (row & Hrow' & ->).
  simplify_eq. unfold raw_score, missing_name, invalid_phone, duplicate_phone,
    missing_date, unrealistic_age. by rewrite Hphones.
Qed.

Lemma enrich_score_range data table (i : nat) r :
  enrich data = Ok table → table !! i = Some r → 0 ≤ Fake_Score r ≤ 100.
Proof. intros He Hr. rewrite (enrich_score _ _ _ _ He Hr). apply clip_range. Qed.

(** The two predictions of a row of the table. *)
Lemma enrich_predictions data table (i : nat) r :
  enrich data = Ok table → table !! i = Some r →
  (if decide (Pregnancy_Status r = Pregnant)
   then ts_add (Register_Date r) (PREDICT_REMAINING_WEEKS * 7 * day_ns)
        = Ok (Predicted_Giving_Birth_Date r)
   else Predicted_Giving_Birth_Date r = None)
  ∧ (if decide (Pregnancy_Status r = Has_Child)
     then ∃ delta, ts_rsub today (Register_Date r) = Ok delta
                   ∧ Child_Age_Months r = (λ x, div_round1 x (30 * day_ns)) <$> delta
     else Child_Age_Months r = None).
Proof.
  intros He Hr.
  destruct (enrich_row _ _ _ _ He Hr)
    as (mobile & first & predicted & age & _ & _ & Hp & Ha & Hrow & _ & Hd & Hst & Hpi
        & Hai & _).
  pose proof (build_register_date_length data) as Hlen.
  apply predicted_lookup in Hp as [_ Hp]; [|by rewrite length_fmap].
  apply child_age_lookup in Ha as [_ Ha]; [|by rewrite length_fmap].
  assert ((pregnancy_status <$> rows data) !! i = Some (Pregnancy_Status r)) as Hsi
    by (by rewrite list_lookup_fmap, Hrow, Hst).
  destruct (Hp _ _ _ Hsi Hd) as (p & Hp1 & Hp2).
  destruct (Ha _ _ _ Hsi Hd) as (a & Ha1 & Ha2).
  by simplify_eq.
Qed.

(** The score of an exported record, in terms of the exported table. *)
Lemma main_score listing out r :
  main listing = Exported out → r ∈ out →
  Fake_Score r = clip 0 100 (raw_score out r).
Proof.
  intros Hmain Hr.
  destruct (main_record _ _ _ Hmain Hr) as (table & i & He & Hperm & Hi).
  rewrite (raw_score_Permutation _ _ _ Hperm). by eapply enrich_score.
Qed.

(** The stages raise nothing when the two columns that the script
    indexes exist and no date is so close to the ends of the timestamp
    range that the date arithmetic overflows. *)
Lemma enrich_total data :
  "Mobile"%string ∈ columns data →
  "FirstName"%string ∈ columns data →
  Forall (λ d, ∀ D, d = Some D →
                 in_i64 (D + PREDICT_REMAINING_WEEKS * 7 * day_ns) = true
                 ∧ in_i64 (today - D) = true)
         (build_register_date data) →
  ∃ table, enrich data = Ok table.
Proof.
  intros Hmob Hfirst Hdates.
  unfold enrich, col. rewrite !decide_True by done. simpl.
  destruct (mapM_Ok_intro
              (λ d, ts_add d (PREDICT_REMAINING_WEEKS * 7 * day_ns))
              (select ((λ s, bool_decide (s = Pregnant)) <$> (pregnancy_status <$> rows data))
                 (build_register_date data))) as [values Hvalues].
  { apply select_Forall. eapply Forall_impl; [exact Hdates|].
    intros [D|] HD; simpl; [|eauto]. destruct (HD D eq_refl) as [-> _]. eauto. }
  destruct (mapM_Ok_intro (ts_rsub today)
              (select ((λ s, bool_decide (s = Has_Child)) <$> (pregnancy_status <$> rows data))
                 (build_register_date data))) as [deltas Hdeltas].
  { apply select_Forall. eapply Forall_impl; [exact Hdates|].
    intros [D|] HD; simpl; [|eauto]. destruct (HD D eq_refl) as [_ ->]. eauto. }
  unfold predicted_giving_birth_date, child_age_months.
  rewrite Hvalues. simpl. rewrite Hdeltas. simpl. eauto.
Qed.

(** A run with at least one source whose stages raise nothing exports. *)
Lemma main_exports listing :
  sources listing ≠ [] →
  "Mobile"%string ∈ columns (merge (sources listing)) →
  "FirstName"%string ∈ columns (merge (sources listing)) →
  Forall (λ d, ∀ D, d = Some D →
                 in_i64 (D + PREDICT_REMAINING_WEEKS * 7 * day_ns) = true
                 ∧ in_i64 (today - D) = true)
         (build_register_date (merge (sources listing))) →
  ∃ out, main listing = Exported out.
Proof.
  intros Hsrc Hmob Hfirst Hdates.
  destruct (enrich_total _ Hmob Hfirst Hdates) as [table Ht].
  unfold main. destruct (sources listing) as [|f files]; [done|].
  rewrite Ht. eauto.
Qed.

(** * The claims *)

(** C1. [build_register_date] decides once for the whole batch.  With
    the three fragment columns present and fewer than 90% of the rows
    failing to parse, every row gets the date of its own fragments,
    absent where they do not parse, whatever its [Date] cell holds.
    Otherwise the [Date] column is parsed row by row when it exists, and
    every date is absent when it does not exist. *)
Theorem build_register_date_two_tier data :
  let failed := length (filter (λ d, d = None) (ymd_dates to_datetime_ymd data)) in
  let accepted :=
    ymd_labels ⊆ columns data
    ∧ 10 * Z.of_nat failed < 9 * Z.of_nat (length (rows data)) in
  (accepted →
   ∀ (i : nat) row, rows data !! i = Some row →
     build_register_date data !! i
     = Some (to_datetime_ymd (get row "Year"%string) (get row "Month.1"%string)
               (get row "Day"%string)))
  ∧ (¬ accepted → "Date"%string ∈ columns data →
     ∀ (i : nat) row, rows data !! i = Some row →
       build_register_date data !! i
       = Some (to_datetime_dayfirst ((λ x, get x "Date"%string) <$> rows data)
                 (get row "Date"%string)))
  ∧ (¬ accepted → "Date"%string ∉ columns data →
     ∀ (i : nat) row, rows data !! i = Some row →
       build_register_date data !! i = Some None).
Proof.
  intros failed accepted.
  assert (lt_09 (mean (series_isna (ymd_dates to_datetime_ymd data))) = true
          ↔ 10 * Z.of_nat failed < 9 * Z.of_nat (length (rows data))) as Hthr.
  { rewrite lt_09_mean. unfold failed.
    replace (length (ymd_dates to_datetime_ymd data)) with (length (rows data));
      [done|]. unfold ymd_dates. by rewrite length_fmap. }
  assert (∀ (i : nat) row, rows data !! i = Some row →
            date_column to_datetime_dayfirst data !! i
            = Some (to_datetime_dayfirst ((λ x, get x "Date"%string) <$> rows data)
                      (get row "Date"%string))) as Hdate.
  { intros i row Hrow. unfold date_column.
    by rewrite !list_lookup_fmap, Hrow. }
  assert (∀ (i : nat) row, rows data !! i = Some row → all_NaT data !! i = Some None)
    as Hnat.
  { intros i row Hrow. unfold all_NaT. apply lookup_replicate_2.
    by eapply lookup_lt_Some. }
  unfold build_register_date. repeat split.
  - intros [Hcols Hfew] i row Hrow.
    rewrite (decide_True (P := ymd_labels ⊆ _)) by done.
    apply Hthr in Hfew. rewrite Hfew.
    unfold ymd_dates. by rewrite list_lookup_fmap, Hrow.
  - intros Hno Hcol i row Hrow.
    rewrite (decide_True (P := "Date"%string ∈ _)) by done.
    case_decide as Hcols; [|by apply Hdate].
    destruct (lt_09 _) eqn:E; [|by apply Hdate].
    exfalso. apply Hno. split; [done|]. by apply Hthr.
  - intros Hno Hcol i row Hrow.
    rewrite (decide_False (P := "Date"%string ∈ _)) by done.
    case_decide as Hcols; [|by eapply Hnat].
    destruct (lt_09 _) eqn:E; [|by eapply Hnat].
    exfalso. apply Hno. split; [done|]. by apply Hthr.
Qed.

(** C9. [normalize_phone] is a total function whose result is empty or
    made of decimal digits only; a null gives the empty string and
    ["0901234567.0"] gives ["0901234567"]. *)
Theorem normalize_phone_digits_only (x : cell obj) :
  Forall (λ c, is_digit unicode_Nd c = true) (normalize_phone x)
  ∧ normalize_phone NaN = []
  ∧ normalize_phone (Str (lit "0901234567.0")) = lit "0901234567".
Proof.
  split; [|split; reflexivity].
  unfold normalize_phone. destruct (isna x); [constructor|].
  apply sub_nondigits_digits.
Qed.

(** C2. The fake score of every exported record is the sum of the five
    weighted signals (missing name 20, phone shorter than 9 digits 25,
    phone repeated in the batch 20, absent date 15, child age above 72
    months with absent counted as 0: 20) clamped to [0,100]; it lies
    between 0 and 100, and a record with no name and a unique 5-digit
    phone, a date and no age issue scores 45. *)
Theorem fake_score_five_signals listing out r :
  main listing = Exported out → r ∈ out →
  Fake_Score r = clip 0 100 (raw_score out r)
  ∧ 0 ≤ Fake_Score r ≤ 100
  ∧ (missing_name r = true → length (Mobile_norm r) = 5%nat →
     occurrences (Mobile_norm r) (Mobile_norm <$> out) = 1%nat →
     is_Some (Register_Date r) → unrealistic_age r = false →
     Fake_Score r = 45).
Proof.
  intros Hmain Hr.
  pose proof (main_score _ _ _ Hmain Hr) as Hscore.
  split; [done|]. split; [rewrite Hscore; apply clip_range|].
  intros Hname Hlen Hocc [D HD] Hage. rewrite Hscore.
  unfold raw_score, invalid_phone, duplicate_phone, missing_date.
  rewrite Hname, Hage, Hlen, Hocc, HD. reflexivity.
Qed.

(** C3, as amended.  A record never has both predictions: the predicted
    birth date is populated exactly when the status is [Pregnant] and
    the registration date is present, the child age exactly when the
    status is [Has_Child] and the registration date is present. *)
Theorem predictions_follow_status listing out r :
  main listing = Exported out → r ∈ out →
  (is_Some (Predicted_Giving_Birth_Date r)
   ↔ Pregnancy_Status r = Pregnant ∧ is_Some (Register_Date r))
  ∧ (is_Some (Child_Age_Months r)
     ↔ Pregnancy_Status r = Has_Child ∧ is_Some (Register_Date r))
  ∧ ¬ (is_Some (Predicted_Giving_Birth_Date r) ∧ is_Some (Child_Age_Months r)).
Proof.
  intros Hmain Hr.
  destruct (main_record _ _ _ Hmain Hr) as (table & i & He & _ & Hi).
  destruct (enrich_predictions _ _ _ _ He Hi) as [Hp Ha].
  assert (is_Some (Predicted_Giving_Birth_Date r)
          ↔ Pregnancy_Status r = Pregnant ∧ is_Some (Register_Date r)) as H1.
  { clear Ha. destruct (decide (Pregnancy_Status r = Pregnant)) as [Hst|Hst].
    - unfold ts_add in Hp. destruct (Register_Date r) as [D|].
      + destruct (in_i64 _); simplify_eq/=. rewrite <- Hp. naive_solver.
      + simplify_eq/=. rewrite <- Hp. split; [by intros [? ?] | by intros [_ [? ?]]].
    - rewrite Hp. split; [by intros [? ?] | by intros [? _]]. }
  assert (is_Some (Child_Age_Months r)
          ↔ Pregnancy_Status r = Has_Child ∧ is_Some (Register_Date r)) as H2.
  { clear Hp H1. destruct (decide (Pregnancy_Status r = Has_Child)) as [Hst|Hst].
    - destruct Ha as (delta & Hd & ->). unfold ts_rsub in Hd.
      destruct (Register_Date r) as [D|].
      + destruct (in_i64 _); simplify_eq/=. naive_solver.
      + simplify_eq/=. split; [by intros [? ?] | by intros [_ [? ?]]].
    - rewrite Ha. split; [by intros [? ?] | by intros [? _]]. }
  split; [done|]. split; [done|].
  rewrite H1, H2. intros [[? _] [? _]]. congruence.
Qed.

(** C4. The duplicate signal adds 20 to the score of every record whose
    normalised phone occurs more than once in the batch.  Two records at
    different positions with the same normalised phone both carry it,
    the empty phone included, and a record carries it only when another
    record has its phone. *)
Theorem duplicate_phone_penalty listing out :
  main listing = Exported out →
  (∀ r, r ∈ out →
     Fake_Score r
     = signal 20 (missing_name r) + signal 25 (invalid_phone r)
       + signal 15 (missing_date r) + signal 20 (unrealistic_age r)
       + (if duplicate_phone out r then 20 else 0))
  ∧ (∀ (i j : nat) a b, i ≠ j → out !! i = Some a → out !! j = Some b →
       Mobile_norm a = Mobile_norm b →
       duplicate_phone out a = true ∧ duplicate_phone out b = true)
  ∧ (∀ (i j : nat) a b, i ≠ j → out !! i = Some a → out !! j = Some b →
       Mobile_norm a = [] → Mobile_norm b = [] →
       duplicate_phone out a = true ∧ duplicate_phone out b = true)
  ∧ (∀ (i : nat) a, out !! i = Some a → duplicate_phone out a = true →
       ∃ (j : nat) b, j ≠ i ∧ out !! j = Some b ∧ Mobile_norm b = Mobile_norm a).
Proof.
  intros Hmain.
  assert (∀ (i j : nat) a b, i ≠ j → out !! i = Some a → out !! j = Some b →
            Mobile_norm a = Mobile_norm b →
            duplicate_phone out a = true ∧ duplicate_phone out b = true) as Hpair.
  { intros i j a b Hij Ha Hb Heq. unfold duplicate_phone. rewrite <- Heq.
    assert (1 < occurrences (Mobile_norm a) (Mobile_norm <$> out))%nat as Hocc.
    { apply occurrences_twice. exists i, j. split; [done|].
      rewrite !list_lookup_fmap, Ha, Hb. simpl. by rewrite Heq. }
    by rewrite bool_decide_eq_true_2. }
  split; [|split; [done|split]].
  - intros r Hr.
    rewrite (main_score _ _ _ Hmain Hr), clip_id by apply raw_score_range.
    unfold raw_score, signal. lia.
  - intros i j a b Hij Ha Hb Hea Heb. apply (Hpair i j); congruence.
  - intros i a Ha Hdup. unfold duplicate_phone in Hdup.
    apply bool_decide_eq_true_1, occurrences_twice in Hdup
      as (k & l & Hkl & Hk & Hl).
    rewrite list_lookup_fmap in Hk, Hl.
    destruct (out !! k) as [rk|] eqn:Ek; [|done].
    destruct (out !! l) as [rl|] eqn:El; [|done].
    simplify_eq/=.
    destruct (decide (k = i)) as [->|Hki].
    + exists l, rl. by repeat split.
    + exists k, rk. by repeat split.
Qed.

(** C5. The confidence label partitions the range of the fake score
    into bins that are closed above and open below: a score up to 30 is
    [High], above 30 and up to 70 [Medium], above 70 and up to 100
    [Low]; so 30 is [High], 31 and 70 are [Medium], 71 is [Low]. *)
Theorem confidence_label_bins listing out r :
  main listing = Exported out → r ∈ out →
  (Fake_Score r ≤ 30 ↔ Confidence_Label r = Some High)
  ∧ (30 < Fake_Score r ≤ 70 ↔ Confidence_Label r = Some Medium)
  ∧ (70 < Fake_Score r ≤ 100 ↔ Confidence_Label r = Some Low)
  ∧ cut 30 = Some High ∧ cut 31 = Some Medium
  ∧ cut 70 = Some Medium ∧ cut 71 = Some Low.
Proof.
  intros Hmain Hr.
  destruct (main_record _ _ _ Hmain Hr) as (table & i & He & _ & Hi).
  pose proof (enrich_score_range _ _ _ _ He Hi) as Hrange.
  destruct (enrich_row _ _ _ _ He Hi)
    as (? & ? & ? & ? & _ & _ & _ & _ & _ & _ & _ & _ & _ & _ & _ & -> & _).
  destruct (cut_spec _ Hrange) as (Hh & Hm & Hl).
  destruct (Z.le_gt_cases (Fake_Score r) 30) as [H30|H30];
    [rewrite Hh by done
    |destruct (Z.le_gt_cases (Fake_Score r) 70) as [H70|H70];
       [rewrite Hm by lia | rewrite Hl by lia]];
    repeat split; intros; try lia; done.
Qed.

(** C6. A record with status [Pregnant] and registration date [D] has
    the predicted birth date [D] plus the remaining weeks times 7 days,
    which is [D] plus 140 days; without a registration date it has no
    prediction. *)
Theorem predicted_birth_date_140_days listing out r :
  main listing = Exported out → r ∈ out → Pregnancy_Status r = Pregnant →
  (∀ D, Register_Date r = Some D →
     Predicted_Giving_Birth_Date r = Some (D + PREDICT_REMAINING_WEEKS * 7 * day_ns)
     ∧ Predicted_Giving_Birth_Date r = Some (D + 140 * day_ns))
  ∧ (Register_Date r = None → Predicted_Giving_Birth_Date r = None).
Proof.
  intros Hmain Hr Hst.
  destruct (main_record _ _ _ Hmain Hr) as (table & i & He & _ & Hi).
  destruct (enrich_predictions _ _ _ _ He Hi) as [Hp _].
  rewrite decide_True in Hp by done. unfold ts_add in Hp.
  split.
  - intros D HD. rewrite HD in Hp.
    destruct (in_i64 _); simplify_eq/=. by rewrite <- Hp.
  - intros HD. rewrite HD in Hp. by simplify_eq/=.
Qed.

(** C7. The exported table has as many records as the source workbooks
    have rows together. *)
Theorem row_count_preserved listing out :
  main listing = Exported out →
  length out = sum_list_with (λ f, length (body f.2)) (sources listing).
Proof.
  intros Hmain. apply main_Exported in Hmain as (table & He & -> & _).
  rewrite (Permutation_length (sort_values_Permutation table)).
  rewrite (enrich_length _ _ He). apply merge_length.
Qed.

(** C8. The exported table is in ascending order of fake score and,
    among records of equal score, of registration date where both dates
    are present; it is a rearrangement of the scored table, with every
    record and every field as they were. *)
Theorem ranking_sorted_permutation listing out :
  main listing = Exported out →
  (∀ (i j : nat) a b, (i < j)%nat → out !! i = Some a → out !! j = Some b →
     Fake_Score a ≤ Fake_Score b
     ∧ (Fake_Score a = Fake_Score b →
        ∀ x y, Register_Date a = Some x → Register_Date b = Some y → x ≤ y))
  ∧ ∃ table, enrich (merge (sources listing)) = Ok table ∧ out ≡ₚ table.
Proof.
  intros Hmain. apply main_Exported in Hmain as (table & He & -> & _).
  split; [|exists table; split; [done | apply sort_values_Permutation]].
  intros i j a b Hij Ha Hb.
  pose proof (StronglySorted_lookup_lt _ _ _ _ _ _ (sort_values_sorted table) Hij Ha Hb)
    as Hle.
  apply key_le_spec in Hle as [Hlt|[Heq Hd]].
  - split; [lia|]. intros; lia.
  - split; [lia|]. intros _ x y Hx Hy. rewrite Hx, Hy in Hd. by apply Z.leb_le.
Qed.

(** C10. With the threshold of 70 a record is sales-ready exactly when
    its label is [High] or [Medium], and not sales-ready exactly when
    its label is [Low]. *)
Theorem sales_ready_iff_not_low listing out r :
  main listing = Exported out → r ∈ out →
  (Sales_Ready r = true
   ↔ Confidence_Label r = Some High ∨ Confidence_Label r = Some Medium)
  ∧ (Sales_Ready r = false ↔ Confidence_Label r = Some Low).
Proof.
  intros Hmain Hr.
  destruct (main_record _ _ _ Hmain Hr) as (table & i & He & _ & Hi).
  pose proof (enrich_score_range _ _ _ _ He Hi) as Hrange.
  destruct (enrich_row _ _ _ _ He Hi)
    as (? & ? & ? & ? & _ & _ & _ & _ & _ & _ & _ & _ & _ & _ & _ & -> & ->).
  destruct (cut_spec _ Hrange) as (Hh & Hm & Hl).
  unfold DEFAULT_FAKE_THRESHOLD.
  rewrite bool_decide_eq_true, bool_decide_eq_false.
  destruct (Z.le_gt_cases (Fake_Score r) 30) as [H30|H30];
    [rewrite Hh by done
    |destruct (Z.le_gt_cases (Fake_Score r) 70) as [H70|H70];
       [rewrite Hm by lia | rewrite Hl by lia]];
    repeat split; intros; try lia; try done; naive_solver.
Qed.

(** * Further properties of the script *)

(** ** [normalize_phone] on its own results *)

Lemma rstrip_prefix (s : pystr) : rstrip s `prefix_of` s.
Proof.
  unfold rstrip. apply prefix_suffix_reverse.
  rewrite reverse_involutive. apply lstrip_suffix.
Qed.

Lemma strip_sublist (s : pystr) : strip s `sublist_of` s.
Proof.
  unfold strip.
  destruct (rstrip_prefix (lstrip s)) as [k Hk].
  destruct (lstrip_suffix s) as [k' Hk'].
  rewrite Hk' at 2. apply sublist_inserts_l. rewrite Hk at 2.
  by apply sublist_inserts_r.
Qed.

Lemma sub_dot0_end_cases (s : pystr) :
  sub_dot0_end s = s
  ∨ (∃ u, s = u ++ lit ".0" ∧ sub_dot0_end s = u)
  ∨ (∃ u, s = u ++ [46; 48; 10]%N ∧ sub_dot0_end s = u ++ [10%N]).
Proof.
  unfold sub_dot0_end.
  destruct (reverse s) as [|a [|b r]] eqn:E; [by left..|].
  destruct ((a =? 48)%N && (b =? 46)%N) eqn:H1.
  - right. left. exists (reverse r). split; [|done].
    apply andb_true_iff in H1 as [->%N.eqb_eq ->%N.eqb_eq].
    rewrite <- (reverse_involutive s), E. by rewrite !reverse_cons, <- !app_assoc.
  - destruct r as [|c r']; [by left|].
    destruct ((a =? 10)%N && (b =? 48)%N && (c =? 46)%N) eqn:H2; [|by left].
    right. right. exists (reverse r'). split; [|done].
    apply andb_true_iff in H2 as [[->%N.eqb_eq ->%N.eqb_eq]%andb_true_iff ->%N.eqb_eq].
    rewrite <- (reverse_involutive s), E. by rewrite !reverse_cons, <- !app_assoc.
Qed.

Lemma sub_dot0_end_sublist (s : pystr) : sub_dot0_end s `sublist_of` s.
Proof.
  destruct (sub_dot0_end_cases s) as [->|[(u & Hs & ->)|(u & Hs & ->)]]; [done| |].
  - rewrite Hs. by apply sublist_inserts_r.
  - rewrite Hs. apply sublist_app; [done|].
    do 2 apply sublist_cons. done.
Qed.

Section Phone.

(** No code point is both white space and a decimal digit; below 128
    this holds by the tables, above it is a fact about Unicode. *)
Hypothesis space_not_Nd : ∀ c, is_space c = true → unicode_Nd c = false.

Lemma space_not_digit c : is_space c = true → is_digit unicode_Nd c = false.
Proof.
  intros Hc. unfold is_digit. destruct (c <? 128)%N eqn:E; [|by apply space_not_Nd].
  apply N.ltb_lt in E. apply andb_false_iff.
  destruct (N.leb_spec 48 c), (N.leb_spec c 57); auto.
  exfalso. unfold is_space in Hc.
  repeat (apply orb_true_iff in Hc as [Hc|Hc]);
    repeat match goal with
           | H : (_ && _)%bool = true |- _ => apply andb_true_iff in H as [? ?]
           | H : (_ <=? _)%N = true |- _ => apply N.leb_le in H
           | H : (_ =? _)%N = true |- _ => apply N.eqb_eq in H
           end; lia.
Qed.

Lemma digit_not_space c : is_digit unicode_Nd c = true → is_space c = false.
Proof.
  intros Hd. destruct (is_space c) eqn:E; [|done].
  apply space_not_digit in E. congruence.
Qed.

Lemma filter_digit_lstrip (s : pystr) :
  sub_nondigits unicode_Nd (lstrip s) = sub_nondigits unicode_Nd s.
Proof.
  unfold sub_nondigits. induction s as [|c s IH]; simpl; [done|].
  destruct (is_space c) eqn:E; [|done].
  rewrite IH, (filter_cons _ c). rewrite decide_False; [done|].
  rewrite (space_not_digit _ E). done.
Qed.

Lemma filter_digit_rstrip (s : pystr) :
  sub_nondigits unicode_Nd (rstrip s) = sub_nondigits unicode_Nd s.
Proof.
  unfold rstrip.
  transitivity (reverse (sub_nondigits unicode_Nd (lstrip (reverse s)))).
  { unfold sub_nondigits. apply filter_reverse. }
  rewrite filter_digit_lstrip. unfold sub_nondigits.
  by rewrite filter_reverse, reverse_involutive.
Qed.

Lemma filter_digit_strip (s : pystr) :
  sub_nondigits unicode_Nd (strip s) = sub_nondigits unicode_Nd s.
Proof. unfold strip. by rewrite filter_digit_rstrip, filter_digit_lstrip. Qed.

Lemma strip_id (s : pystr) :
  (∀ c, head s = Some c → is_space c = false) →
  (∀ c, last s = Some c → is_space c = false) → strip s = s.
Proof.
  intros Hh Hl. unfold strip, rstrip.
  assert (∀ t : pystr, (∀ c, head t = Some c → is_space c = false) → lstrip t = t)
    as Hfix.
  { intros [|c t] Ht; simpl; [done|]. by rewrite (Ht c). }
  rewrite (Hfix s Hh), Hfix; [apply reverse_involutive|].
  intros c. rewrite head_reverse. apply Hl.
Qed.

Lemma filter_digits_id (d : pystr) :
  Forall (λ c, is_digit unicode_Nd c = true) d → sub_nondigits unicode_Nd d = d.
Proof.
  unfold sub_nondigits. induction 1 as [|c d Hc _ IH]; [done|].
  rewrite filter_cons, decide_True by done. by rewrite IH.
Qed.

Lemma normalize_phone_digits_fix (d : pystr) :
  Forall (λ c, is_digit unicode_Nd c = true) d → normalize_phone (Str d) = d.
Proof.
  intros Hd. unfold normalize_phone. simpl.
  rewrite Forall_forall in Hd.
  assert (strip d = d) as ->.
  { apply strip_id; intros c Hc; apply digit_not_space, Hd.
    - destruct d; simplify_eq/=. left.
    - by apply last_Some_elem_of. }
  destruct (sub_dot0_end_cases d) as [->|[(u & Hs & _)|(u & Hs & _)]].
  - apply filter_digits_id. by apply Forall_forall.
  - assert (is_digit unicode_Nd 46 = true) as H; [|done].
    apply Hd. rewrite Hs. apply elem_of_app. right. simpl. left.
  - assert (is_digit unicode_Nd 46 = true) as H; [|done].
    apply Hd. rewrite Hs. apply elem_of_app. right. left.
Qed.

(** X1. Normalising a normalised phone changes nothing. *)
Theorem normalize_phone_idempotent (x : cell obj) :
  normalize_phone (Str (normalize_phone x)) = normalize_phone x.
Proof.
  apply normalize_phone_digits_fix.
  unfold normalize_phone. destruct (isna x); [constructor|].
  apply sub_nondigits_digits.
Qed.

(** X2. A run of digits is normalised to itself, whether the cell holds
    it as text or with the [".0"] that a numeric cell adds: both spellings
    of a phone have the same normal form. *)
Theorem normalize_phone_float_artifact (d : pystr) :
  Forall (λ c, is_digit unicode_Nd c = true) d →
  normalize_phone (Str (d ++ lit ".0")) = d ∧ normalize_phone (Str d) = d.
Proof.
  intros Hd. split; [|by apply normalize_phone_digits_fix].
  unfold normalize_phone. simpl.
  assert (strip (d ++ lit ".0") = d ++ lit ".0") as ->.
  { apply strip_id.
    - intros c Hc. destruct d as [|c' d']; simplify_eq/=; [done|].
      apply digit_not_space. by inversion Hd.
    - intros c. rewrite last_app. simpl. by intros [= <-]. }
  unfold sub_dot0_end. change (lit ".0") with [46; 48]%N.
  rewrite reverse_app. simpl. rewrite reverse_involutive.
  by apply filter_digits_id.
Qed.

(** X3. Apart from one final [0] that follows a dot at the end of the
    stripped text, the result holds every digit of the cell's text, in
    order. *)
Theorem normalize_phone_keeps_digits (x : cell obj) :
  isna x = false →
  normalize_phone x = sub_nondigits unicode_Nd (str str_obj x)
  ∨ (sub_nondigits unicode_Nd (str str_obj x) = normalize_phone x ++ [48%N]
     ∧ ∃ u, strip (str str_obj x) = u ++ lit ".0").
Proof.
  intros Hx. unfold normalize_phone. rewrite Hx.
  rewrite <- (filter_digit_strip (str str_obj x)).
  destruct (sub_dot0_end_cases (strip (str str_obj x)))
    as [->|[(u & Hs & ->)|(u & Hs & _)]].
  - by left.
  - right. split; [|eauto]. rewrite Hs. unfold sub_nondigits.
    rewrite filter_app. f_equal.
  - exfalso. assert (is_space 10 = false) as H; [|done].
    apply (strip_last (str str_obj x)). rewrite Hs, last_app. done.
Qed.

End Phone.

(** X4. The result is a subsequence of the cell's text: no character is
    invented and none changes place. *)
Theorem normalize_phone_sublist (x : cell obj) :
  normalize_phone x `sublist_of` str str_obj x.
Proof.
  unfold normalize_phone. destruct (isna x); [apply sublist_nil_l|].
  etrans; [apply sublist_filter|]. etrans; [apply sub_dot0_end_sublist|].
  apply strip_sublist.
Qed.

(** ** Derived columns of an exported record *)

(** X5. The status of an exported record is read off the two markers of
    its own row, [S1] first: [Pregnant] when [S1] is not null, else
    [Has_Child] when [S2] is not null, else [Unknown]. *)
Theorem status_follows_markers listing out r :
  main listing = Exported out → r ∈ out →
  (Pregnancy_Status r = Pregnant ↔ isna (get (raw r) "S1"%string) = false)
  ∧ (Pregnancy_Status r = Has_Child
     ↔ isna (get (raw r) "S1"%string) = true ∧ isna (get (raw r) "S2"%string) = false)
  ∧ (Pregnancy_Status r = Unknown
     ↔ isna (get (raw r) "S1"%string) = true ∧ isna (get (raw r) "S2"%string) = true).
Proof.
  intros Hmain Hr.
  destruct (main_record _ _ _ Hmain Hr) as (table & i & He & _ & Hi).
  destruct (enrich_row _ _ _ _ He Hi)
    as (? & ? & ? & ? & _ & _ & _ & _ & _ & _ & _ & -> & _).
  unfold pregnancy_status, notna.
  destruct (isna (get (raw r) "S1")), (isna (get (raw r) "S2")); simpl;
    repeat split; intros; try done; naive_solver.
Qed.

(** X6. The normalised phone of an exported record is [normalize_phone]
    of the [Mobile] cell of its own row: merge and sort keep the derived
    columns with their rows. *)
Theorem mobile_norm_of_own_row listing out r :
  main listing = Exported out → r ∈ out →
  Mobile_norm r = normalize_phone (get (raw r) "Mobile"%string).
Proof.
  intros Hmain Hr.
  destruct (main_record _ _ _ Hmain Hr) as (table & i & He & _ & Hi).
  destruct (enrich_row _ _ _ _ He Hi)
    as (mobile & ? & ? & ? & Hm & _ & _ & _ & Hrow & Hph & _).
  apply list_lookup_fmap_Some in Hph as (c & -> & Hc).
  apply (col_lookup _ _ _ i c Hm) in Hc as (row & Hrow' & ->). congruence.
Qed.

(** X7. A record with status [Has_Child] and registration date [D] has
    as child age the quotient of [today - D] by 30 days, rounded by
    [round(1)]; without a registration date it has no age. *)
Theorem child_age_of_has_child listing out r :
  main listing = Exported out → r ∈ out → Pregnancy_Status r = Has_Child →
  (∀ D, Register_Date r = Some D →
     Child_Age_Months r = Some (div_round1 (today - D) (30 * day_ns)))
  ∧ (Register_Date r = None → Child_Age_Months r = None).
Proof.
  intros Hmain Hr Hst.
  destruct (main_record _ _ _ Hmain Hr) as (table & i & He & _ & Hi).
  destruct (enrich_predictions _ _ _ _ He Hi) as [_ Ha].
  rewrite decide_True in Ha by done. destruct Ha as (delta & Hd & ->).
  unfold ts_rsub in Hd. split.
  - intros D HD. rewrite HD in Hd. destruct (in_i64 _); by simplify_eq/=.
  - intros HD. rewrite HD in Hd. by simplify_eq/=.
Qed.

(** An age above 72 months needs an age, hence the status [Has_Child]
    and a registration date. *)
Lemma unrealistic_age_has_date listing out r :
  main listing = Exported out → r ∈ out → unrealistic_age r = true →
  Pregnancy_Status r = Has_Child ∧ missing_date r = false.
Proof.
  intros Hmain Hr Hage.
  destruct (main_record _ _ _ Hmain Hr) as (table & i & He & _ & Hi).
  destruct (enrich_predictions _ _ _ _ He Hi) as [_ Ha].
  unfold unrealistic_age in Hage. unfold missing_date.
  destruct (decide (Pregnancy_Status r = Has_Child)) as [Hst|Hst].
  - split; [done|]. destruct Ha as (delta & Hd & Heq). rewrite Heq in Hage.
    unfold ts_rsub in Hd. destruct (Register_Date r) as [D|].
    + by apply bool_decide_eq_false_2.
    + simplify_eq/=.
  - rewrite Ha in Hage. done.
Qed.

(** X8. The signals for a missing date and for an unrealistic child age
    never fire together, and the latter fires only for the status
    [Has_Child]; so no exported record scores more than 85. *)
Theorem score_at_most_85 listing out r :
  main listing = Exported out → r ∈ out →
  (unrealistic_age r = true → Pregnancy_Status r = Has_Child)
  ∧ ¬ (missing_date r = true ∧ unrealistic_age r = true)
  ∧ Fake_Score r ≤ 85.
Proof.
  intros Hmain Hr.
  pose proof (unrealistic_age_has_date _ _ _ Hmain Hr) as Hage.
  split; [intros H; by destruct (Hage H)|].
  split; [intros [Hd H]; destruct (Hage H); congruence|].
  rewrite (main_score _ _ _ Hmain Hr), clip_id by apply raw_score_range.
  unfold raw_score.
  destruct (missing_name r), (invalid_phone r), (duplicate_phone out r),
    (missing_date r), (unrealistic_age r); simpl; try lia;
    destruct Hage as [_ ?]; done.
Qed.

(** X9. A record is not sales-ready exactly when it has no name, an
    invalid phone, a duplicated phone and, on top, no date or an
    unrealistic child age. *)
Theorem not_sales_ready_iff listing out r :
  main listing = Exported out → r ∈ out →
  Sales_Ready r = false
  ↔ missing_name r = true ∧ invalid_phone r = true ∧ duplicate_phone out r = true
    ∧ (missing_date r = true ∨ unrealistic_age r = true).
Proof.
  intros Hmain Hr.
  pose proof (main_score _ _ _ Hmain Hr) as Hs.
  rewrite clip_id in Hs by apply raw_score_range.
  destruct (main_record _ _ _ Hmain Hr) as (table & i & He & _ & Hi).
  destruct (enrich_row _ _ _ _ He Hi)
    as (? & ? & ? & ? & _ & _ & _ & _ & _ & _ & _ & _ & _ & _ & _ & _ & ->).
  pose proof (unrealistic_age_has_date _ _ _ Hmain Hr) as Hage.
  rewrite bool_decide_eq_false, Hs. unfold raw_score, DEFAULT_FAKE_THRESHOLD.
  destruct (missing_name r), (invalid_phone r), (duplicate_phone out r),
    (missing_date r), (unrealistic_age r); simpl;
    try (by destruct Hage);
    (split; [intros H; try (exfalso; lia); repeat split; auto
            |intros (? & ? & ? & [?|?]); try done; lia]).
Qed.

(** ** Sources, merge and failures *)

Lemma merge_rows_elem (files : list (pystr * Sheet obj)) row :
  row ∈ rows (merge files)
  ↔ ∃ f cells, f ∈ files ∧ cells ∈ body f.2
      ∧ row = <["Source_File"%string := Str f.1]> (list_to_map (zip (header f.2) cells)).
Proof.
  unfold merge, concat. simpl. rewrite list_elem_of_bind. split.
  - intros (df & Hrow & Hdf).
    apply list_elem_of_fmap in Hdf as (f & -> & Hf). simpl in Hrow.
    apply list_elem_of_fmap in Hrow as (m & -> & Hm).
    apply list_elem_of_fmap in Hm as (cells & -> & Hc). eauto 6.
  - intros (f & cells & Hf & Hc & ->).
    exists (set_column "Source_File" (Str f.1) (read_excel f.2)). split.
    + simpl. apply list_elem_of_fmap. eexists. split; [done|].
      apply list_elem_of_fmap. eauto.
    + apply list_elem_of_fmap. eauto.
Qed.

Lemma merge_columns_elem (files : list (pystr * Sheet obj)) label :
  label ∈ columns (merge files)
  ↔ ∃ f, f ∈ files ∧ (label ∈ header f.2 ∨ label = "Source_File"%string).
Proof.
  unfold merge, concat. simpl. rewrite elem_of_remove_dups, list_elem_of_bind. split.
  - intros (df & Hl & Hdf).
    apply list_elem_of_fmap in Hdf as (f & -> & Hf). exists f. split; [done|].
    simpl in Hl. case_decide; [by left|].
    apply elem_of_app in Hl as [?|?%list_elem_of_singleton]; auto.
  - intros (f & Hf & Hl).
    exists (set_column "Source_File" (Str f.1) (read_excel f.2)).
    split; [|apply list_elem_of_fmap; eauto].
    simpl. case_decide as Hin; destruct Hl as [?| ->]; try done.
    + apply elem_of_app. by left.
    + apply elem_of_app. right. by apply list_elem_of_singleton.
Qed.

Lemma sources_elem (listing : list (pystr * Sheet obj)) f :
  f ∈ sources listing ↔ f ∈ listing ∧ f.1 ≠ OUTPUT_FILE.
Proof. unfold sources. rewrite list_elem_of_filter. split; intros [? ?]; by split. Qed.

Lemma mapM_Raise {A B} (f : A → result B) (l : list A) e :
  mapM f l = Raise e → ∃ x, x ∈ l ∧ f x = Raise e.
Proof.
  induction l as [|x l IH]; simpl; [done|].
  destruct (f x) as [y|e'] eqn:E; simpl.
  - destruct (mapM f l) as [k|e'']; simpl; [done|]. intros [= Heq]. subst e''.
    destruct IH as (x' & ? & ?); [done|]. exists x'. split; [by right | done].
  - intros [= Heq]. subst e'. exists x. split; [left | done].
Qed.

(** What a failed [enrich] raised, and why. *)
Lemma enrich_Raise data e :
  enrich data = Raise e →
  (e = KeyError "Mobile" ∧ "Mobile"%string ∉ columns data)
  ∨ e = OverflowError
  ∨ (e = KeyError "FirstName" ∧ "FirstName"%string ∉ columns data).
Proof.
  unfold enrich. intros H.
  destruct (col data "Mobile") as [mobile|e0] eqn:Hm.
  2:{ simpl in H. injection H as <-. left. unfold col in Hm.
      destruct (decide ("Mobile"%string ∈ columns data)); by simplify_eq. }
  simpl in H.
  destruct (predicted_giving_birth_date _ _) as [predicted|e1] eqn:Hp.
  2:{ simpl in H. injection H as <-. right. left.
      unfold predicted_giving_birth_date in Hp.
      destruct (mapM _ _) as [values|e2] eqn:E in Hp; [done|].
      simpl in Hp. injection Hp as <-.
      apply mapM_Raise in E as (d & _ & Hd). unfold ts_add in Hd.
      destruct d; [|done]. destruct (in_i64 _); by simplify_eq. }
  simpl in H.
  destruct (child_age_months _ _) as [age|e1] eqn:Ha.
  2:{ simpl in H. injection H as <-. right. left.
      unfold child_age_months in Ha.
      destruct (mapM _ _) as [deltas|e2] eqn:E in Ha; [done|].
      simpl in Ha. injection Ha as <-.
      apply mapM_Raise in E as (d & _ & Hd). unfold ts_rsub in Hd.
      destruct d; [|done]. destruct (in_i64 _); by simplify_eq. }
  simpl in H.
  destruct (col data "FirstName") as [first|e1] eqn:Hf; [done|].
  simpl in H. injection H as <-. right. right. unfold col in Hf.
  destruct (decide ("FirstName"%string ∈ columns data)); by simplify_eq.
Qed.

(** X10. A run stops without output exactly when the folder holds no
    workbook besides the output of a previous run. *)
Theorem main_stopped_iff listing :
  main listing = Stopped ↔ ∀ f, f ∈ listing → f.1 = OUTPUT_FILE.
Proof.
  unfold main. split.
  - intros H f Hf. destruct (decide (f.1 = OUTPUT_FILE)) as [|Hne]; [done|].
    assert (f ∈ sources listing) as Hs by (by apply sources_elem).
    destruct (sources listing) as [|g files]; [by apply elem_of_nil in Hs|].
    by destruct (enrich _).
  - intros H. destruct (sources listing) as [|g files] eqn:E; [done|].
    assert (g ∈ sources listing) as Hg by (rewrite E; left).
    apply sources_elem in Hg as [Hg Hne]. by apply H in Hg.
Qed.

(** X11. The output of a previous run in the folder does not change
    what the run does. *)
Theorem previous_output_ignored listing listing' sh :
  main (listing ++ (OUTPUT_FILE, sh) :: listing') = main (listing ++ listing').
Proof.
  unfold main, sources. rewrite !filter_app, filter_cons.
  by rewrite decide_False by (simpl; intros H; by apply H).
Qed.

(** X12. Every exported record is a row of one of the source workbooks,
    under that workbook's header, and its [Source_File] cell is the name
    of that workbook, which is never the name of the output file. *)
Theorem source_file_provenance listing out r :
  main listing = Exported out → r ∈ out →
  ∃ f cells,
    f ∈ listing ∧ f.1 ≠ OUTPUT_FILE ∧ cells ∈ body f.2
    ∧ raw r = <["Source_File"%string := Str f.1]> (list_to_map (zip (header f.2) cells))
    ∧ get (raw r) "Source_File"%string = Str f.1.
Proof.
  intros Hmain Hr.
  destruct (main_record _ _ _ Hmain Hr) as (table & i & He & _ & Hi).
  destruct (enrich_row _ _ _ _ He Hi)
    as (? & ? & ? & ? & _ & _ & _ & _ & Hrow & _).
  apply list_elem_of_lookup_2, merge_rows_elem in Hrow
    as (f & cells & [Hf Hne]%sources_elem & Hc & Hraw).
  exists f, cells. repeat split; try done.
  rewrite Hraw. unfold get. by rewrite lookup_insert_eq.
Qed.

(** X13. When no source workbook has a [Mobile] column the run fails
    with [KeyError] on that label; and a run fails with a [KeyError]
    only on [Mobile] or [FirstName], when no source workbook has the
    column. *)
Theorem key_error_iff_no_column listing :
  (sources listing ≠ [] →
   (∀ f, f ∈ sources listing → "Mobile"%string ∉ header f.2) →
   main listing = Failed (KeyError "Mobile"))
  ∧ (∀ label, main listing = Failed (KeyError label) →
       (label = "Mobile"%string ∨ label = "FirstName"%string)
       ∧ ∀ f, f ∈ sources listing → label ∉ header f.2).
Proof.
  split.
  - intros Hne Hno. unfold main.
    destruct (sources listing) as [|g files] eqn:E; [done|].
    unfold enrich, col. rewrite (decide_False (P := "Mobile"%string ∈ _)); [done|].
    intros (f & Hf & [Hh|Hh])%merge_columns_elem; [|done].
    by apply (Hno f).
  - intros label H. unfold main in H.
    destruct (sources listing) as [|g files] eqn:E; [done|].
    destruct (enrich _) as [table|e] eqn:He; [done|]. injection H as ->.
    apply enrich_Raise in He as [[[= <-] Hc]|[?|[[= <-] Hc]]]; [|done|].
    + split; [by left|]. intros f Hf Hh. apply Hc, merge_columns_elem. eauto.
    + split; [by right|]. intros f Hf Hh. apply Hc, merge_columns_elem. eauto.
Qed.


(** ** Dates across workbooks *)

Lemma build_register_date_accepted data :
  ymd_labels ⊆ columns data →
  10 * Z.of_nat (length (filter (λ d, d = None) (ymd_dates to_datetime_ymd data)))
  < 9 * Z.of_nat (length (rows data)) →
  build_register_date data = ymd_dates to_datetime_ymd data.
Proof.
  intros Hcols Hfew. unfold build_register_date.
  rewrite (decide_True (P := ymd_labels ⊆ _)) by done.
  assert (lt_09 (mean (series_isna (ymd_dates to_datetime_ymd data))) = true) as ->;
    [|done].
  apply lt_09_mean.
  replace (length (ymd_dates to_datetime_ymd data)) with (length (rows data));
    [done|]. unfold ymd_dates. by rewrite length_fmap.
Qed.

Lemma sheet_row_missing_label (hd : list string) (cells : list (cell obj))
    (name : pystr) (label : string) :
  label ∉ hd → label ≠ "Source_File"%string →
  get (<["Source_File"%string := Str name]> (list_to_map (zip hd cells))) label = NaN.
Proof.
  intros Hl Hne. unfold get. rewrite lookup_insert_ne by done.
  rewrite (not_elem_of_list_to_map_1 (M := gmap string)); [done|].
  intros Hin. apply Hl.
  apply list_elem_of_fmap in Hin as ([k v] & -> & Hkv). by eapply elem_of_zip_l.
Qed.

(** X15. The date method is chosen for the merged batch, not per
    workbook.  When fragments with all three cells null do not parse and
    the merged batch keeps the fragment dates, a record that comes from
    a workbook without the three fragment columns has no registration
    date, whatever its [Date] cell holds. *)
Theorem date_only_workbook_loses_dates listing out r
    (f : pystr * Sheet obj) (cells : list (cell obj)) :
  to_datetime_ymd NaN NaN NaN = None →
  main listing = Exported out → r ∈ out →
  ymd_labels ⊆ columns (merge (sources listing)) →
  10 * Z.of_nat (length (filter (λ d, d = None)
                           (ymd_dates to_datetime_ymd (merge (sources listing)))))
  < 9 * Z.of_nat (length (rows (merge (sources listing)))) →
  raw r = <["Source_File"%string := Str f.1]> (list_to_map (zip (header f.2) cells)) →
  (∀ label, label ∈ ymd_labels → label ∉ header f.2) →
  Register_Date r = None.
Proof.
  intros Hnull Hmain Hr Hcols Hfew Hraw Hno.
  destruct (main_record _ _ _ Hmain Hr) as (table & i & He & _ & Hi).
  destruct (enrich_row _ _ _ _ He Hi)
    as (? & ? & ? & ? & _ & _ & _ & _ & Hrow & _ & Hd & _).
  rewrite (build_register_date_accepted _ Hcols Hfew) in Hd.
  unfold ymd_dates in Hd. rewrite list_lookup_fmap, Hrow in Hd. simpl in Hd.
  injection Hd as <-. rewrite Hraw.
  rewrite !sheet_row_missing_label; try done;
    apply Hno; unfold ymd_labels; set_solver.
Qed.

(** ** Order of the exported table *)

(** X16. Among exported records of equal score, those without a
    registration date come after those with one. *)
Theorem undated_records_last listing out (i j : nat) a b :
  main listing = Exported out →
  (i < j)%nat → out !! i = Some a → out !! j = Some b →
  Fake_Score a = Fake_Score b → Register_Date a = None → Register_Date b = None.
Proof.
  intros Hmain Hij Ha Hb Hs Hd.
  apply main_Exported in Hmain as (table & _ & -> & _).
  pose proof (StronglySorted_lookup_lt _ _ _ _ _ _ (sort_values_sorted table) Hij Ha Hb)
    as Hle.
  apply key_le_spec in Hle as [Hlt|[_ Hle]]; [lia|].
  rewrite Hd in Hle. by destruct (Register_Date b).
Qed.

Lemma same_key_spec (s : Z) (d : option Z) (r : Rec obj) :
  same_key s d r = true ↔ Fake_Score r = s ∧ Register_Date r = d.
Proof.
  unfold same_key. rewrite andb_true_iff, Z.eqb_eq.
  destruct (Register_Date r), d; simpl; rewrite ?Z.eqb_eq; naive_solver.
Qed.

Lemma key_le_refl_eq (a b : Rec obj) :
  Fake_Score a = Fake_Score b → Register_Date a = Register_Date b → key_le a b = true.
Proof.
  intros Hs Hd. apply key_le_spec. right. split; [done|]. rewrite Hd.
  destruct (Register_Date b); simpl; [by apply Z.leb_le | done].
Qed.

Lemma insert_sorted_filter (s : Z) (d : option Z) (x : Rec obj) (l : list (Rec obj)) :
  filter (λ r, same_key s d r = true) (insert_sorted x l)
  = filter (λ r, same_key s d r = true) (x :: l).
Proof.
  induction l as [|y l IH]; simpl; [done|].
  destruct (key_le x y) eqn:E; [done|].
  rewrite filter_cons, IH, !(filter_cons _ x), (filter_cons _ y).
  destruct (decide (same_key s d x = true)) as [Hx|Hx]; [|done].
  destruct (decide (same_key s d y = true)) as [Hy|Hy]; [|done].
  apply same_key_spec in Hx as [? ?], Hy as [? ?].
  rewrite key_le_refl_eq in E by congruence. done.
Qed.

(** X17. The ranker is stable: exported records with the same score and
    the same registration date are in the order in which the merge read
    them. *)
Theorem ranking_stable listing out (s : Z) (d : option Z) :
  main listing = Exported out →
  ∃ table,
    enrich (merge (sources listing)) = Ok table
    ∧ filter (λ r, same_key s d r = true) out
      = filter (λ r, same_key s d r = true) table.
Proof.
  intros Hmain. apply main_Exported in Hmain as (table & He & -> & _).
  exists table. split; [done|]. clear He.
  induction table as [|x t IH]; [done|].
  unfold sort_values in *. simpl.
  by rewrite insert_sorted_filter, !filter_cons, IH.
Qed.

End Proofs.

(** * The claims on a run

    Each statement below instantiates a theorem of the previous part on
    the run [Demo.run], whose table [Demo.out] has six records. *)

Example normalize_phone_numeric_cell :
  demo_normalize_phone (Obj 901234567) = lit "901234567".
Proof. reflexivity. Qed.

Example normalize_phone_spaces :
  demo_normalize_phone (Str (lit " +84 (90) 123-4567.0 ")) = lit "84901234567".
Proof. reflexivity. Qed.

Example normalize_phone_no_digit :
  demo_normalize_phone (Str (lit "n/a")) = [].
Proof. reflexivity. Qed.

(** The fourth row of the merged frame has the fragments 2025-02-30 and
    the text 28/02/2025: the batch keeps the fragments, so the row has
    no date although its text parses. *)
Example accepted_batch_ignores_text :
  demo_build_register_date Demo.data !! 3%nat = Some None
  ∧ date_column Demo.to_datetime_dayfirst Demo.data !! 3%nat
    = Some (Demo.civil 2025 2 28).
Proof. split; vm_compute; reflexivity. Qed.

Example cut_below_range : cut (-1) = None.
Proof. reflexivity. Qed.

Example no_source_stops : demo_main [(OUTPUT_FILE, Demo.sheet_a)] = Stopped.
Proof. vm_compute. reflexivity. Qed.

Example missing_column_fails :
  demo_main [(lit "c.xlsx", mkSheet ["FirstName"%string] [[Str (lit "An")]])]
  = Failed (KeyError "Mobile").
Proof. vm_compute. reflexivity. Qed.

Example early_date_overflows :
  demo_main
    [(lit "d.xlsx",
      mkSheet Demo.labels
        [Demo.row (Some "An"%string) (Obj 901234567) false true (Some (1700, 1, 1)) None])]
  = Failed OverflowError.
Proof. vm_compute. reflexivity. Qed.

Lemma demo_run_exports : demo_main Demo.listing = Exported Demo.out.
Proof. vm_compute. reflexivity. Defined.

Lemma demo_pick_elem (i : nat) : (i < 6)%nat → Demo.pick i ∈ Demo.out.
Proof.
  intros Hi. apply (list_elem_of_lookup_2 _ i).
  do 6 (destruct i as [|i]; [vm_compute; reflexivity|]). lia.
Defined.

Lemma build_register_date_two_tier_witness :
  (ymd_labels ⊆ columns Demo.data
   ∧ 10 * Z.of_nat (length (filter (λ d, d = None)
                              (ymd_dates Demo.to_datetime_ymd Demo.data)))
     < 9 * Z.of_nat (length (rows Demo.data)))
  ∧ ∀ (i : nat) row, rows Demo.data !! i = Some row →
      build_register_date Demo.to_datetime_ymd Demo.to_datetime_dayfirst Demo.data !! i
      = Some (Demo.to_datetime_ymd (get row "Year"%string) (get row "Month.1"%string)
                (get row "Day"%string)).
Proof.
  assert (ymd_labels ⊆ columns Demo.data
          ∧ 10 * Z.of_nat (length (filter (λ d, d = None)
                                     (ymd_dates Demo.to_datetime_ymd Demo.data)))
            < 9 * Z.of_nat (length (rows Demo.data))) as H.
  { split; [apply (bool_decide_unpack _); vm_compute; exact I | vm_compute; reflexivity]. }
  split; [exact H|].
  exact (proj1 (build_register_date_two_tier Demo.to_datetime_ymd
                  Demo.to_datetime_dayfirst Demo.data) H).
Defined.

Lemma fake_score_five_signals_witness :
  (demo_main Demo.listing = Exported Demo.out ∧ Demo.pick 3 ∈ Demo.out
   ∧ missing_name (Demo.pick 3) = true ∧ length (Mobile_norm (Demo.pick 3)) = 5%nat
   ∧ occurrences (Mobile_norm (Demo.pick 3)) (Mobile_norm <$> Demo.out) = 1%nat
   ∧ is_Some (Register_Date (Demo.pick 3)) ∧ unrealistic_age (Demo.pick 3) = false)
  ∧ Fake_Score (Demo.pick 3) = 45.
Proof.
  assert (Demo.pick 3 ∈ Demo.out) as Hin by (apply demo_pick_elem; lia).
  assert (is_Some (Register_Date (Demo.pick 3))) as Hdate
    by (eexists; vm_compute; reflexivity).
  split; [repeat split; try done; vm_compute; reflexivity|].
  apply (fake_score_five_signals _ _ _ _ _ _ _ _ _ demo_run_exports Hin);
    try done; vm_compute; reflexivity.
Defined.

(** C3 as the specification words it fails on the run: the fourth
    record has status [Unknown] and neither prediction. *)
Lemma exactly_one_prediction_counterexample :
  demo_main Demo.listing = Exported Demo.out
  ∧ ¬ (∀ r, r ∈ Demo.out → exactly_one_prediction r).
Proof.
  split; [exact demo_run_exports|].
  intros H. destruct (H (Demo.pick 3)) as [(_ & _ & Hst)|(_ & _ & Hst)];
    [apply demo_pick_elem; lia | vm_compute in Hst; discriminate..].
Qed.

Lemma predictions_follow_status_witness :
  (demo_main Demo.listing = Exported Demo.out ∧ Demo.pick 0 ∈ Demo.out)
  ∧ (is_Some (Predicted_Giving_Birth_Date (Demo.pick 0))
     ↔ Pregnancy_Status (Demo.pick 0) = Pregnant ∧ is_Some (Register_Date (Demo.pick 0)))
  ∧ (is_Some (Child_Age_Months (Demo.pick 0))
     ↔ Pregnancy_Status (Demo.pick 0) = Has_Child ∧ is_Some (Register_Date (Demo.pick 0)))
  ∧ ¬ (is_Some (Predicted_Giving_Birth_Date (Demo.pick 0))
       ∧ is_Some (Child_Age_Months (Demo.pick 0))).
Proof.
  assert (Demo.pick 0 ∈ Demo.out) as Hin by (apply demo_pick_elem; lia).
  split; [split; [exact demo_run_exports | exact Hin]|].
  exact (predictions_follow_status _ _ _ _ _ _ _ _ _ demo_run_exports Hin).
Defined.

Lemma duplicate_phone_penalty_witness :
  demo_main Demo.listing = Exported Demo.out
  ∧ (duplicate_phone Demo.out (Demo.pick 1) = true
     ∧ duplicate_phone Demo.out (Demo.pick 2) = true)
  ∧ (duplicate_phone Demo.out (Demo.pick 4) = true
     ∧ duplicate_phone Demo.out (Demo.pick 5) = true).
Proof.
  split; [exact demo_run_exports|].
  destruct (duplicate_phone_penalty _ _ _ _ _ _ _ _ demo_run_exports)
    as (_ & Hpair & Hempty & _).
  split.
  - apply (Hpair 1%nat 2%nat); [lia | vm_compute; reflexivity..].
  - apply (Hempty 4%nat 5%nat); [lia | vm_compute; reflexivity..].
Defined.

Lemma confidence_label_bins_witness :
  (demo_main Demo.listing = Exported Demo.out ∧ Demo.pick 3 ∈ Demo.out)
  ∧ (30 < Fake_Score (Demo.pick 3) ≤ 70
     ↔ Confidence_Label (Demo.pick 3) = Some Medium).
Proof.
  assert (Demo.pick 3 ∈ Demo.out) as Hin by (apply demo_pick_elem; lia).
  split; [split; [exact demo_run_exports | exact Hin]|].
  exact (proj1 (proj2 (confidence_label_bins _ _ _ _ _ _ _ _ _ demo_run_exports Hin))).
Defined.

Lemma predicted_birth_date_140_days_witness :
  (demo_main Demo.listing = Exported Demo.out ∧ Demo.pick 0 ∈ Demo.out
   ∧ Pregnancy_Status (Demo.pick 0) = Pregnant
   ∧ Register_Date (Demo.pick 0) = Some (Demo.days_from_civil 2025 11 3 * day_ns))
  ∧ Predicted_Giving_Birth_Date (Demo.pick 0)
    = Some (Demo.days_from_civil 2025 11 3 * day_ns + 140 * day_ns).
Proof.
  assert (Demo.pick 0 ∈ Demo.out) as Hin by (apply demo_pick_elem; lia).
  assert (Pregnancy_Status (Demo.pick 0) = Pregnant) as Hst by (vm_compute; reflexivity).
  assert (Register_Date (Demo.pick 0) = Some (Demo.days_from_civil 2025 11 3 * day_ns))
    as Hd by (vm_compute; reflexivity).
  split; [by repeat split; try exact demo_run_exports|].
  exact (proj2 (proj1 (predicted_birth_date_140_days _ _ _ _ _ _ _ _ _
                         demo_run_exports Hin Hst) _ Hd)).
Defined.

Lemma row_count_preserved_witness :
  demo_main Demo.listing = Exported Demo.out
  ∧ length Demo.out = sum_list_with (λ f, length (body f.2)) (sources Demo.listing).
Proof.
  split; [exact demo_run_exports|].
  exact (row_count_preserved _ _ _ _ _ _ _ _ demo_run_exports).
Defined.

Lemma ranking_sorted_permutation_witness :
  demo_main Demo.listing = Exported Demo.out
  ∧ Fake_Score (Demo.pick 2) ≤ Fake_Score (Demo.pick 4)
  ∧ ∃ table,
      enrich Demo.str_num Demo.ascii_only Demo.to_datetime_ymd Demo.to_datetime_dayfirst
        Demo.div_round1 Demo.today (merge (sources Demo.listing)) = Ok table
      ∧ Demo.out ≡ₚ table.
Proof.
  split; [exact demo_run_exports|].
  destruct (ranking_sorted_permutation _ _ _ _ _ _ _ _ demo_run_exports)
    as [Hsorted Hperm].
  split; [|exact Hperm].
  apply (Hsorted 2%nat 4%nat); [lia | vm_compute; reflexivity..].
Defined.

Lemma sales_ready_iff_not_low_witness :
  (demo_main Demo.listing = Exported Demo.out ∧ Demo.pick 5 ∈ Demo.out)
  ∧ (Sales_Ready (Demo.pick 5) = false ↔ Confidence_Label (Demo.pick 5) = Some Low).
Proof.
  assert (Demo.pick 5 ∈ Demo.out) as Hin by (apply demo_pick_elem; lia).
  split; [split; [exact demo_run_exports | exact Hin]|].
  exact (proj2 (sales_ready_iff_not_low _ _ _ _ _ _ _ _ _ demo_run_exports Hin)).
Defined.

(** * The further properties on runs *)

#[local] Abbreviation demo_enrich :=
  (enrich Demo.str_num Demo.ascii_only Demo.to_datetime_ymd Demo.to_datetime_dayfirst
     Demo.div_round1 Demo.today).

Lemma demo_space_not_Nd : ∀ c, is_space c = true → Demo.ascii_only c = false.
Proof. intros c _. reflexivity. Defined.

Lemma demo_mixed_exports : demo_main Demo.listing_mixed = Exported Demo.out_mixed.
Proof. vm_compute. reflexivity. Defined.

Lemma demo_pick_mixed_elem (i : nat) : (i < 5)%nat → Demo.pick_mixed i ∈ Demo.out_mixed.
Proof.
  intros Hi. apply (list_elem_of_lookup_2 _ i).
  do 5 (destruct i as [|i]; [vm_compute; reflexivity|]). lia.
Defined.

Lemma normalize_phone_idempotent_witness :
  (∀ c, is_space c = true → Demo.ascii_only c = false)
  ∧ demo_normalize_phone (Str (demo_normalize_phone (Obj 901234567)))
    = demo_normalize_phone (Obj 901234567).
Proof.
  split; [exact demo_space_not_Nd|].
  exact (normalize_phone_idempotent Demo.str_num Demo.ascii_only demo_space_not_Nd
           (Obj 901234567)).
Defined.

Lemma normalize_phone_float_artifact_witness :
  ((∀ c, is_space c = true → Demo.ascii_only c = false)
   ∧ Forall (λ c, is_digit Demo.ascii_only c = true) (lit "0901234567"))
  ∧ demo_normalize_phone (Str (lit "0901234567" ++ lit ".0")) = lit "0901234567"
  ∧ demo_normalize_phone (Str (lit "0901234567")) = lit "0901234567".
Proof.
  assert (Forall (λ c, is_digit Demo.ascii_only c = true) (lit "0901234567")) as Hd
    by (apply (bool_decide_unpack _); vm_compute; exact I).
  split; [split; [exact demo_space_not_Nd | exact Hd]|].
  exact (normalize_phone_float_artifact Demo.str_num Demo.ascii_only demo_space_not_Nd
           (lit "0901234567") Hd).
Defined.

Lemma normalize_phone_keeps_digits_witness :
  ((∀ c, is_space c = true → Demo.ascii_only c = false)
   ∧ isna (Str (lit "0901.234.56.0") : cell Z) = false)
  ∧ (demo_normalize_phone (Str (lit "0901.234.56.0"))
     = sub_nondigits Demo.ascii_only (str Demo.str_num (Str (lit "0901.234.56.0")))
     ∨ (sub_nondigits Demo.ascii_only (str Demo.str_num (Str (lit "0901.234.56.0")))
        = demo_normalize_phone (Str (lit "0901.234.56.0")) ++ [48%N]
        ∧ ∃ u, strip (str Demo.str_num (Str (lit "0901.234.56.0"))) = u ++ lit ".0")).
Proof.
  split; [split; [exact demo_space_not_Nd | reflexivity]|].
  exact (normalize_phone_keeps_digits Demo.str_num Demo.ascii_only demo_space_not_Nd
           (Str (lit "0901.234.56.0")) eq_refl).
Defined.

Lemma status_follows_markers_witness :
  (demo_main Demo.listing = Exported Demo.out ∧ Demo.pick 1 ∈ Demo.out)
  ∧ (Pregnancy_Status (Demo.pick 1) = Pregnant
     ↔ isna (get (raw (Demo.pick 1)) "S1"%string) = false).
Proof.
  assert (Demo.pick 1 ∈ Demo.out) as Hin by (apply demo_pick_elem; lia).
  split; [split; [exact demo_run_exports | exact Hin]|].
  exact (proj1 (status_follows_markers _ _ _ _ _ _ _ _ _ demo_run_exports Hin)).
Defined.

Lemma mobile_norm_of_own_row_witness :
  (demo_main Demo.listing = Exported Demo.out ∧ Demo.pick 2 ∈ Demo.out)
  ∧ Mobile_norm (Demo.pick 2)
    = demo_normalize_phone (get (raw (Demo.pick 2)) "Mobile"%string).
Proof.
  assert (Demo.pick 2 ∈ Demo.out) as Hin by (apply demo_pick_elem; lia).
  split; [split; [exact demo_run_exports | exact Hin]|].
  exact (mobile_norm_of_own_row _ _ _ _ _ _ _ _ _ demo_run_exports Hin).
Defined.

Lemma child_age_of_has_child_witness :
  (demo_main Demo.listing = Exported Demo.out ∧ Demo.pick 2 ∈ Demo.out
   ∧ Pregnancy_Status (Demo.pick 2) = Has_Child
   ∧ Register_Date (Demo.pick 2) = Some (Demo.days_from_civil 2019 1 15 * day_ns))
  ∧ Child_Age_Months (Demo.pick 2)
    = Some (Demo.div_round1 (Demo.today - Demo.days_from_civil 2019 1 15 * day_ns)
              (30 * day_ns)).
Proof.
  assert (Demo.pick 2 ∈ Demo.out) as Hin by (apply demo_pick_elem; lia).
  assert (Pregnancy_Status (Demo.pick 2) = Has_Child) as Hst by (vm_compute; reflexivity).
  assert (Register_Date (Demo.pick 2) = Some (Demo.days_from_civil 2019 1 15 * day_ns))
    as Hd by (vm_compute; reflexivity).
  split; [by repeat split; try exact demo_run_exports|].
  exact (proj1 (child_age_of_has_child _ _ _ _ _ _ _ _ _ demo_run_exports Hin Hst) _ Hd).
Defined.

Lemma score_at_most_85_witness :
  (demo_main Demo.listing = Exported Demo.out ∧ Demo.pick 5 ∈ Demo.out)
  ∧ Fake_Score (Demo.pick 5) ≤ 85.
Proof.
  assert (Demo.pick 5 ∈ Demo.out) as Hin by (apply demo_pick_elem; lia).
  split; [split; [exact demo_run_exports | exact Hin]|].
  exact (proj2 (proj2 (score_at_most_85 _ _ _ _ _ _ _ _ _ demo_run_exports Hin))).
Defined.

Lemma not_sales_ready_iff_witness :
  (demo_main Demo.listing = Exported Demo.out ∧ Demo.pick 5 ∈ Demo.out)
  ∧ (Sales_Ready (Demo.pick 5) = false
     ↔ missing_name (Demo.pick 5) = true ∧ invalid_phone (Demo.pick 5) = true
       ∧ duplicate_phone Demo.out (Demo.pick 5) = true
       ∧ (missing_date (Demo.pick 5) = true ∨ unrealistic_age (Demo.pick 5) = true)).
Proof.
  assert (Demo.pick 5 ∈ Demo.out) as Hin by (apply demo_pick_elem; lia).
  split; [split; [exact demo_run_exports | exact Hin]|].
  exact (not_sales_ready_iff _ _ _ _ _ _ _ _ _ demo_run_exports Hin).
Defined.

Lemma source_file_provenance_witness :
  (demo_main Demo.listing = Exported Demo.out ∧ Demo.pick 0 ∈ Demo.out)
  ∧ ∃ f cells,
      f ∈ Demo.listing ∧ f.1 ≠ OUTPUT_FILE ∧ cells ∈ body f.2
      ∧ raw (Demo.pick 0)
        = <["Source_File"%string := Str f.1]> (list_to_map (zip (header f.2) cells))
      ∧ get (raw (Demo.pick 0)) "Source_File"%string = Str f.1.
Proof.
  assert (Demo.pick 0 ∈ Demo.out) as Hin by (apply demo_pick_elem; lia).
  split; [split; [exact demo_run_exports | exact Hin]|].
  exact (source_file_provenance _ _ _ _ _ _ _ _ _ demo_run_exports Hin).
Defined.

Lemma key_error_iff_no_column_witness :
  (sources Demo.listing_no_mobile ≠ []
   ∧ ∀ f, f ∈ sources Demo.listing_no_mobile → "Mobile"%string ∉ header f.2)
  ∧ demo_main Demo.listing_no_mobile = Failed (KeyError "Mobile").
Proof.
  assert (sources Demo.listing_no_mobile ≠ []) as Hne by (vm_compute; discriminate).
  assert (∀ f, f ∈ sources Demo.listing_no_mobile → "Mobile"%string ∉ header f.2) as Hno.
  { intros f [Hf _]%sources_elem. apply list_elem_of_singleton in Hf as ->.
    simpl. intros H%list_elem_of_singleton. discriminate. }
  split; [split; [exact Hne | exact Hno]|].
  exact (proj1 (key_error_iff_no_column _ _ _ _ _ _ Demo.listing_no_mobile) Hne Hno).
Defined.


Lemma date_only_workbook_loses_dates_witness :
  (Demo.to_datetime_ymd NaN NaN NaN = None
   ∧ demo_main Demo.listing_mixed = Exported Demo.out_mixed
   ∧ Demo.pick_mixed 1 ∈ Demo.out_mixed
   ∧ Demo.to_datetime_dayfirst [] (get (raw (Demo.pick_mixed 1)) "Date"%string)
     = Demo.civil 2024 6 5)
  ∧ Register_Date (Demo.pick_mixed 1) = None.
Proof.
  assert (Demo.pick_mixed 1 ∈ Demo.out_mixed) as Hin
    by (apply demo_pick_mixed_elem; lia).
  split; [repeat split; try done; try exact demo_mixed_exports; vm_compute; reflexivity|].
  apply (date_only_workbook_loses_dates Demo.str_num Demo.ascii_only
           Demo.to_datetime_ymd Demo.to_datetime_dayfirst Demo.div_round1 Demo.today
           Demo.listing_mixed Demo.out_mixed
           (Demo.pick_mixed 1) (lit "c.xlsx", Demo.sheet_c)
           [Str (lit "Thu"); Str (lit "0987 654 321"); Str (lit "x");
            Str (lit "05/06/2024")]).
  - reflexivity.
  - exact demo_mixed_exports.
  - exact Hin.
  - apply (bool_decide_unpack _). vm_compute. exact I.
  - vm_compute. reflexivity.
  - vm_compute. reflexivity.
  - apply Forall_forall. apply (bool_decide_unpack _). vm_compute. exact I.
Defined.

Lemma undated_records_last_witness :
  (demo_main Demo.listing = Exported Demo.out
   ∧ Demo.out !! 4%nat = Some (Demo.pick 4) ∧ Demo.out !! 5%nat = Some (Demo.pick 5)
   ∧ Fake_Score (Demo.pick 4) = Fake_Score (Demo.pick 5)
   ∧ Register_Date (Demo.pick 4) = None)
  ∧ Register_Date (Demo.pick 5) = None.
Proof.
  assert (Demo.out !! 4%nat = Some (Demo.pick 4)) as H4 by (vm_compute; reflexivity).
  assert (Demo.out !! 5%nat = Some (Demo.pick 5)) as H5 by (vm_compute; reflexivity).
  assert (Fake_Score (Demo.pick 4) = Fake_Score (Demo.pick 5)) as Hs
    by (vm_compute; reflexivity).
  assert (Register_Date (Demo.pick 4) = None) as Hd by (vm_compute; reflexivity).
  split; [by repeat split; try exact demo_run_exports|].
  apply (undated_records_last _ _ _ _ _ _ Demo.listing Demo.out 4 5
           (Demo.pick 4) (Demo.pick 5) demo_run_exports); [lia | done..].
Defined.

Lemma ranking_stable_witness :
  demo_main Demo.listing = Exported Demo.out
  ∧ ∃ table,
      demo_enrich (merge (sources Demo.listing)) = Ok table
      ∧ filter (λ r, same_key 80 None r = true) Demo.out
        = filter (λ r, same_key 80 None r = true) table.
Proof.
  split; [exact demo_run_exports|].
  exact (ranking_stable _ _ _ _ _ _ Demo.listing Demo.out 80 None demo_run_exports).
Defined.
